(** * Session-token authentication service (main.py)

    A shallow embedding of the request handlers [register], [login],
    [signout] and [require_session] of main.py, of the Mongo collection
    they share, and of the header parsing they perform, followed by the
    properties of the session life cycle.

    Conventions of the embedding.
    - The [users] collection is the list of its documents in natural
      (insertion) order; [find_one] returns the first match and
      [update_one] rewrites the first match, as the driver does.
    - A user document is a record with one field per key written by
      [create_user_doc].  A key holding [None] and a key removed by
      [$unset] are both the option [None]: every read in the source
      ([dict.get] followed by a truth test, or an equality query with a
      non-empty string) treats the two alike.
    - Header strings are sequences of 8-bit characters (the transport
      decodes header values as Latin-1).
    - A [datetime] is a count of microseconds since 0001-01-01 00:00:00;
      the representable ones run up to 9999-12-31 23:59:59.999999, and
      date arithmetic that leaves this range raises OverflowError.
    - What the process draws from its environment (the fresh ObjectId, the
      clock, the salt, the uuid4 value) is an explicit argument of the
      handler that draws it.
    - The store is an ideal collaborator: a call to it returns. It keeps
      datetimes at millisecond precision, as the driver encodes them. *)

From Stdlib Require Import String Ascii List ZArith NArith Bool Lia.
Import ListNotations.
Local Open Scope string_scope.

(** ** Python values used by the handlers *)

Definition ObjectId := string.   (* an ObjectId through its [str] rendering *)
Definition datetime := Z.        (* microseconds since 0001-01-01 *)

(** One past [datetime.max]: 3652059 days of 86400 * 10^6 microseconds. *)
Definition datetime_end : Z := 315537897600000000%Z.

(** A datetime as the store keeps it: whole milliseconds, the
    microseconds below dropped. *)
Definition bson_datetime (t : datetime) : datetime := (t / 1000 * 1000)%Z.

(** Truth value of a [str] and of an [Optional[str]]. *)
Definition truthy (s : string) : bool := negb (s =? "").

Definition truthy_opt (o : option string) : bool :=
  match o with
  | Some s => truthy s
  | None => false
  end.

(** [str.lower] on Latin-1 characters: A-Z and the accented capitals
    U+00C0..U+00DE (U+00D7 excepted) move up by 32. *)
Definition lower_ascii (c : ascii) : ascii :=
  let n := nat_of_ascii c in
  if (((65 <=? n) && (n <=? 90)) ||
      ((192 <=? n) && (n <=? 222) && negb (n =? 215)))%nat
  then ascii_of_nat (n + 32)
  else c.

Fixpoint lower (s : string) : string :=
  match s with
  | EmptyString => EmptyString
  | String c r => String (lower_ascii c) (lower r)
  end.

(** [s.partition(sep)] for a one-character separator: the part before the
    first occurrence, the separator, the part after it; [(s, "", "")]
    when the separator does not occur. *)
Fixpoint partition (sep : ascii) (s : string) : string * string * string :=
  match s with
  | EmptyString => (EmptyString, EmptyString, EmptyString)
  | String c r =>
      if Ascii.eqb c sep then (EmptyString, String sep EmptyString, r)
      else let '(head, found, tail) := partition sep r in
           (String c head, found, tail)
  end.

(** ** Settings *)

Record Settings := mkSettings {
  MONGO_URI : string;
  MONGO_DB : string;
  SESSION_TOKEN_TTL_DAYS : Z
}.

Definition default_settings : Settings :=
  {| MONGO_URI := "mongodb://localhost:27017";
     MONGO_DB := "fastapi_auth_db";
     SESSION_TOKEN_TTL_DAYS := 30 |}.

(** ** Pydantic models *)

Module RegisterIn.
Record t := mk { username : string; password : string; full_name : option string }.
End RegisterIn.

Module LoginIn.
Record t := mk { username : string; password : string }.
End LoginIn.

Module TokenOut.
Record t := mk { session_token : string; expires_at : option datetime }.
End TokenOut.

Module UserOut.
Record t := mk { id : string; username : string; full_name : option string; logged_in : bool }.
End UserOut.

(** ** Documents of the [users] collection *)

Record UserDoc := mkUserDoc {
  _id : ObjectId;
  username : string;
  hashed_password : option string;
  full_name : option string;
  disabled : bool;
  logged_in : bool;
  session_token : option string;
  session_expires_at : option datetime;
  created_at : datetime
}.

Definition collection := list UserDoc.

(** ** Errors and the handler monad *)

Inductive exn :=
| HTTPException (status_code : nat) (detail : string)
| DuplicateKeyError
| UnknownHashError
| MalformedHashError
| PasswordSizeError
| OverflowError.

Inductive outcome (A : Type) : Type :=
| Return (a : A)
| Raise (e : exn).
Arguments Return {A} a.
Arguments Raise {A} e.

(** [timedelta(days=n)] accepts at most 999999999 days either way. *)
Definition timedelta (days : Z) : outcome Z :=
  if ((-999999999 <=? days) && (days <=? 999999999))%Z
  then Return (days * 86400000000)%Z
  else Raise OverflowError.

(** [t + delta] on a datetime: the sum must be a representable
    datetime. *)
Definition datetime_add (t : datetime) (delta : Z) : outcome datetime :=
  if ((0 <=? t + delta) && (t + delta <? datetime_end))%Z
  then Return (t + delta)%Z
  else Raise OverflowError.

(** A handler reads and writes the collection and returns or raises. *)
Definition M (A : Type) : Type := collection -> outcome A * collection.

Definition ret {A} (a : A) : M A := fun c => (Return a, c).
Definition raise {A} (e : exn) : M A := fun c => (Raise e, c).
Definition lift {A} (o : outcome A) : M A := fun c => (o, c).
Definition bind {A B} (m : M A) (k : A -> M B) : M B :=
  fun c =>
    match m c with
    | (Return a, c') => k a c'
    | (Raise e, c') => (Raise e, c')
    end.

Declare Scope handler_scope.
Delimit Scope handler_scope with handler.
Notation "x <- m ;; k" := (bind m (fun x => k))
  (at level 100, m at next level, right associativity) : handler_scope.
Notation "m ;;; k" := (bind m (fun _ => k))
  (at level 100, right associativity) : handler_scope.
Local Open Scope handler_scope.

(** The error kinds of the specification, as the handlers raise them. *)
Definition DuplicateUsername : exn := HTTPException 400 "Username already exists".
Definition InvalidCredentials : exn := HTTPException 401 "Incorrect username or password".
Definition UserDisabled : exn := HTTPException 403 "User disabled".
Definition MissingAuthHeader : exn := HTTPException 401 "Missing Authorization header".
Definition MalformedAuthHeader : exn := HTTPException 401 "Invalid authorization header".
Definition MalformedSignoutHeader : exn :=
  HTTPException 401 "Invalid authorization header (expected 'Session <token>')".
Definition InvalidSession : exn := HTTPException 401 "Invalid session token".
Definition SessionInactive : exn :=
  HTTPException 401 "Session not active (user not logged in)".

(** ** Store operations *)

(** Query filters [{"username": u}], [{"session_token": t}], [{"_id": i}]. *)
Definition by_username (u : string) (d : UserDoc) : bool := username d =? u.

Definition by_token (t : string) (d : UserDoc) : bool :=
  match session_token d with
  | Some t' => t' =? t
  | None => false
  end.

Definition by_id (i : ObjectId) (d : UserDoc) : bool := _id d =? i.

Fixpoint first_match (q : UserDoc -> bool) (c : collection) : option UserDoc :=
  match c with
  | [] => None
  | d :: c' => if q d then Some d else first_match q c'
  end.

Fixpoint update_first (q : UserDoc -> bool) (u : UserDoc -> UserDoc)
    (c : collection) : collection :=
  match c with
  | [] => []
  | d :: c' => if q d then u d :: c' else d :: update_first q u c'
  end.

Definition find_one (q : UserDoc -> bool) : M (option UserDoc) :=
  fun c => (Return (first_match q c), c).

Definition update_one (q : UserDoc -> bool) (u : UserDoc -> UserDoc) : M unit :=
  fun c => (Return tt, update_first q u c).

(** A document as the store keeps it. *)
Definition bson_doc (d : UserDoc) : UserDoc :=
  {| _id := _id d;
     username := username d;
     hashed_password := hashed_password d;
     full_name := full_name d;
     disabled := disabled d;
     logged_in := logged_in d;
     session_token := session_token d;
     session_expires_at := option_map bson_datetime (session_expires_at d);
     created_at := bson_datetime (created_at d) |}.

(** [insert_one] under the two unique indexes of the collection, the
    built-in one on [_id] and the one on [username] created at startup. *)
Definition insert_one (d : UserDoc) : M ObjectId :=
  fun c =>
    if existsb (fun e => by_id (_id d) e || by_username (username d) e) c
    then (Raise DuplicateKeyError, c)
    else (Return (_id d), (c ++ [bson_doc d])%list).

(** The two update documents of the source. *)

(* {"$set": {"logged_in": True, "session_token": token,
             "session_expires_at": expires_at}}, the datetime as stored *)
Definition set_login_state (token : string) (expires : datetime) (d : UserDoc) : UserDoc :=
  {| _id := _id d;
     username := username d;
     hashed_password := hashed_password d;
     full_name := full_name d;
     disabled := disabled d;
     logged_in := true;
     session_token := Some token;
     session_expires_at := Some (bson_datetime expires);
     created_at := created_at d |}.

(* {"$set": {"logged_in": False},
    "$unset": {"session_token": "", "session_expires_at": ""}} *)
Definition clear_login_state (d : UserDoc) : UserDoc :=
  {| _id := _id d;
     username := username d;
     hashed_password := hashed_password d;
     full_name := full_name d;
     disabled := disabled d;
     logged_in := false;
     session_token := None;
     session_expires_at := None;
     created_at := created_at d |}.

(** ** Helper DB functions *)

Definition get_user_doc_by_username (u : string) : M (option UserDoc) :=
  find_one (by_username u).

Definition get_user_doc_by_token (token : string) : M (option UserDoc) :=
  if negb (truthy token) then ret None
  else find_one (by_token token).

(** ** Password hashing and the handlers *)

Section Handlers.

Variable settings : Settings.

(** The bcrypt_sha256 scheme of passlib is outside the program: how it
    hashes a password under a salt, and how it checks a password against
    a hash that carries its prefix (it answers, or raises on a hash it
    cannot parse or a secret it refuses). *)
Variable bcrypt_sha256_hash : string -> string -> string.
Variable bcrypt_sha256_verify : string -> string -> outcome bool.

Definition bcrypt_sha256_identify (hashed : string) : bool :=
  prefix "$bcrypt-sha256$" hashed.

(** passlib refuses to hash a secret of more than 4096 characters. *)
Definition MAX_PASSWORD_SIZE : nat := 4096.

(** [pwd_context = CryptContext(schemes=["bcrypt_sha256"])].  To hash, the
    secret is first checked against the size limit.  To verify, the
    context looks for a configured scheme that identifies the hash,
    raises UnknownHashError when there is none, and otherwise hands over
    to the scheme. *)
Definition pwd_context_hash (salt secret : string) : outcome string :=
  if (MAX_PASSWORD_SIZE <? String.length secret)%nat then Raise PasswordSizeError
  else Return (bcrypt_sha256_hash salt secret).

Definition pwd_context_verify (secret hashed : string) : outcome bool :=
  if bcrypt_sha256_identify hashed then bcrypt_sha256_verify secret hashed
  else Raise UnknownHashError.

Definition hash_password (salt password : string) : outcome string :=
  pwd_context_hash salt password.

Definition verify_password (plain hashed : string) : outcome bool :=
  pwd_context_verify plain hashed.

Definition create_user_doc (oid : ObjectId) (utcnow : datetime) (salt : string)
    (payload : RegisterIn.t) : M UserDoc :=
  hashed <- lift (hash_password salt (RegisterIn.password payload)) ;;
  let doc :=
    {| _id := oid;       (* assigned by the driver at insertion *)
       username := RegisterIn.username payload;
       hashed_password := Some hashed;
       full_name := RegisterIn.full_name payload;
       disabled := false;
       logged_in := false;
       session_token := None;
       session_expires_at := None;
       created_at := utcnow |} in
  inserted_id <- insert_one doc ;;
  (* doc["_id"] = res.inserted_id; doc.pop("hashed_password", None) *)
  ret {| _id := inserted_id;
         username := username doc;
         hashed_password := None;
         full_name := full_name doc;
         disabled := disabled doc;
         logged_in := logged_in doc;
         session_token := session_token doc;
         session_expires_at := session_expires_at doc;
         created_at := created_at doc |}.

Definition make_session_token (uuid4_hex : string) : string := uuid4_hex.

Definition register (oid : ObjectId) (utcnow : datetime) (salt : string)
    (user : RegisterIn.t) : M UserOut.t :=
  existing <- get_user_doc_by_username (RegisterIn.username user) ;;
  match existing with
  | Some _ => raise (HTTPException 400 "Username already exists")
  | None =>
      doc <- create_user_doc oid utcnow salt user ;;
      ret {| UserOut.id := _id doc;
             UserOut.username := username doc;
             UserOut.full_name := full_name doc;
             UserOut.logged_in := logged_in doc |}
  end.

Definition login (uuid4_hex : string) (utcnow : datetime) (body : LoginIn.t)
    : M TokenOut.t :=
  user_doc <- get_user_doc_by_username (LoginIn.username body) ;;
  match user_doc with
  | None => raise (HTTPException 401 "Incorrect username or password")
  | Some user_doc =>
      let hashed := hashed_password user_doc in
      (* not hashed or not verify_password(body.password, hashed) *)
      rejected <- match hashed with
                  | None => ret true
                  | Some h =>
                      if negb (truthy h) then ret true
                      else verified <- lift (verify_password (LoginIn.password body) h) ;;
                           ret (negb verified)
                  end ;;
      if rejected : bool
      then raise (HTTPException 401 "Incorrect username or password")
      else if disabled user_doc
      then raise (HTTPException 403 "User disabled")
      else
        let token := make_session_token uuid4_hex in
        delta <- lift (timedelta (SESSION_TOKEN_TTL_DAYS settings)) ;;
        expires_at <- lift (datetime_add utcnow delta) ;;
        update_one (by_id (_id user_doc)) (set_login_state token expires_at) ;;;
        ret {| TokenOut.session_token := token;
               TokenOut.expires_at := Some expires_at |}
  end.

Definition signout (authorization : option string) : M string :=
  match authorization with
  | None => raise (HTTPException 401 "Missing Authorization header")
  | Some authorization =>
      if negb (truthy authorization)
      then raise (HTTPException 401 "Missing Authorization header")
      else
        let '(scheme, _, token) := partition " " authorization in
        if negb (lower scheme =? "session") || negb (truthy token)
        then raise (HTTPException 401
               "Invalid authorization header (expected 'Session <token>')")
        else
          user_doc <- get_user_doc_by_token token ;;
          match user_doc with
          | None => raise (HTTPException 401 "Invalid session token")
          | Some user_doc =>
              update_one (by_id (_id user_doc)) clear_login_state ;;;
              ret "Signed out"
          end
  end.

Definition require_session (authorization : option string) : M UserOut.t :=
  match authorization with
  | None => raise (HTTPException 401 "Missing Authorization header")
  | Some authorization =>
      if negb (truthy authorization)
      then raise (HTTPException 401 "Missing Authorization header")
      else
        let '(scheme, _, token) := partition " " authorization in
        if negb (lower scheme =? "session") || negb (truthy token)
        then raise (HTTPException 401 "Invalid authorization header")
        else
          user_doc <- get_user_doc_by_token token ;;
          match user_doc with
          | None => raise (HTTPException 401 "Invalid session token")
          | Some user_doc =>
              if negb (logged_in user_doc)
              then raise (HTTPException 401
                     "Session not active (user not logged in)")
              else if disabled user_doc
              then raise (HTTPException 403 "User disabled")
              else ret {| UserOut.id := _id user_doc;
                          UserOut.username := username user_doc;
                          UserOut.full_name := full_name user_doc;
                          UserOut.logged_in := true |}
          end
  end.

Definition protected_route (authorization : option string) : M string :=
  current_user <- require_session authorization ;;
  ret ("Hello " ++ UserOut.username current_user ++ ", you are signed in.").

End Handlers.

(** ** A stand-in scheme for the examples

    Not a hash: it lets the handlers be run on concrete requests. *)
Definition example_hash (salt secret : string) : string :=
  "$bcrypt-sha256$" ++ secret.

Definition example_verify (secret hashed : string) : outcome bool :=
  Return (hashed =? example_hash "" secret).

Definition alice_in : RegisterIn.t :=
  {| RegisterIn.username := "alice"; RegisterIn.password := "pw123";
     RegisterIn.full_name := Some "Alice" |}.

Definition alice_login : LoginIn.t :=
  {| LoginIn.username := "alice"; LoginIn.password := "pw123" |}.

(** ** Notions used in the statements *)

(** The public view returned by protected access. *)
Definition public_view (d : UserDoc) : UserOut.t :=
  {| UserOut.id := _id d;
     UserOut.username := username d;
     UserOut.full_name := full_name d;
     UserOut.logged_in := true |}.

(** Case-insensitive comparison stated on its own terms: two characters
    are the same letter when they are equal, or when one is an ASCII
    capital and the other the matching small letter. *)
Definition is_capital (c : ascii) : bool :=
  ((65 <=? nat_of_ascii c) && (nat_of_ascii c <=? 90))%nat.

Definition same_letter (a b : ascii) : bool :=
  Ascii.eqb a b
  || (is_capital a && (nat_of_ascii a + 32 =? nat_of_ascii b)%nat)
  || (is_capital b && (nat_of_ascii b + 32 =? nat_of_ascii a)%nat).

Fixpoint eq_ignore_case (a b : string) : bool :=
  match a, b with
  | EmptyString, EmptyString => true
  | String x a', String y b' => same_letter x y && eq_ignore_case a' b'
  | _, _ => false
  end.

Fixpoint occurs (c : ascii) (s : string) : bool :=
  match s with
  | EmptyString => false
  | String x r => Ascii.eqb x c || occurs c r
  end.

(** The header splits at its first space into a scheme that is "session"
    up to case and a non-empty remainder [token]. *)
Definition credential_shape (authorization : option string) (token : string) : Prop :=
  exists scheme,
    authorization = Some (scheme ++ " " ++ token) /\
    occurs " " scheme = false /\
    eq_ignore_case scheme "session" = true /\
    token <> "".

(** A handler accepts the header when it raises neither of its two
    header errors. *)
Definition signout_accepts (r : outcome string) : Prop :=
  r <> Raise MissingAuthHeader /\ r <> Raise MalformedSignoutHeader.

Definition session_accepts (r : outcome UserOut.t) : Prop :=
  r <> Raise MissingAuthHeader /\ r <> Raise MalformedAuthHeader.

(** The expiry that login computes: [utcnow + timedelta(days=TTL)]. *)
Definition session_expiry (settings : Settings) (utcnow : datetime) : outcome datetime :=
  match timedelta (SESSION_TOKEN_TTL_DAYS settings) with
  | Return delta => datetime_add utcnow delta
  | Raise e => Raise e
  end.

(** The expiry is a representable datetime: the time-to-live is at most
    999999999 days either way and [utcnow] plus that many days lies
    between 0001-01-01 and the end of 9999. *)
Definition expiry_in_range (settings : Settings) (utcnow : datetime) : Prop :=
  (-999999999 <= SESSION_TOKEN_TTL_DAYS settings <= 999999999)%Z /\
  (0 <= utcnow + SESSION_TOKEN_TTL_DAYS settings * 86400000000
     < 315537897600000000)%Z.

(** A token is present exactly when the record is logged in. *)
Definition session_inv (d : UserDoc) : Prop :=
  session_token d <> None <-> logged_in d = true.

(** The store keeps [_id] unique. *)
Definition unique_ids (c : collection) : Prop := NoDup (map _id c).

(** The records of [c] that hold token [t]. *)
Definition holders (t : string) (c : collection) : list UserDoc :=
  filter (by_token t) c.

Definition set_expires (e : option datetime) (d : UserDoc) : UserDoc :=
  {| _id := _id d;
     username := username d;
     hashed_password := hashed_password d;
     full_name := full_name d;
     disabled := disabled d;
     logged_in := logged_in d;
     session_token := session_token d;
     session_expires_at := e;
     created_at := created_at d |}.

Definition same_but_expiry (d1 d2 : UserDoc) : Prop :=
  d2 = set_expires (session_expires_at d2) d1.

(** The fields that signout leaves alone. *)
Definition same_identity (d d' : UserDoc) : Prop :=
  _id d' = _id d /\
  username d' = username d /\
  hashed_password d' = hashed_password d /\
  full_name d' = full_name d /\
  disabled d' = disabled d /\
  created_at d' = created_at d.

(** ** Example records *)

Definition example_doc (i name : string) (hashed : option string)
    (off : bool) (logged : bool) (tok : option string) : UserDoc :=
  {| _id := i;
     username := name;
     hashed_password := hashed;
     full_name := None;
     disabled := off;
     logged_in := logged;
     session_token := tok;
     session_expires_at := match tok with Some _ => Some 2592000002000%Z | None => None end;
     created_at := 1000%Z |}.

Definition alice_active : UserDoc :=
  example_doc "id1" "alice" (Some (example_hash "" "pw123")) false true (Some "t1").

Definition alice_signed_out : UserDoc :=
  example_doc "id1" "alice" (Some (example_hash "" "pw123")) false false None.

Definition bob_idle : UserDoc :=
  example_doc "id2" "bob" (Some (example_hash "" "hunter2")) false false None.

(** A disabled record that still carries a token although it is not
    logged in. *)
Definition carol_disabled : UserDoc :=
  example_doc "id3" "carol" (Some (example_hash "" "pw")) true false (Some "t3").



Definition example_store : collection := [alice_active; bob_idle; carol_disabled].

(** A configuration with a time-to-live of three million days, and the
    start of 2026-11-03 as a clock value. *)
Definition long_ttl_settings : Settings :=
  {| MONGO_URI := "mongodb://localhost:27017";
     MONGO_DB := "fastapi_auth_db";
     SESSION_TOKEN_TTL_DAYS := 3000000 |}.

Definition nov_2026 : datetime := 63929260800000000%Z.

(** ** Further notions *)

(** The unique index on [username]. *)
Definition unique_usernames (c : collection) : Prop := NoDup (map username c).

(** What the store guarantees by its two unique indexes. *)
Definition store_ok (c : collection) : Prop :=
  unique_ids c /\ unique_usernames c.

(** The document that a registration stores: the creation time at
    millisecond precision. *)
Definition registered_doc (hash : string -> string -> string) (oid : ObjectId)
    (utcnow : datetime) (salt : string) (payload : RegisterIn.t) : UserDoc :=
  {| _id := oid;
     username := RegisterIn.username payload;
     hashed_password := Some (hash salt (RegisterIn.password payload));
     full_name := RegisterIn.full_name payload;
     disabled := false;
     logged_in := false;
     session_token := None;
     session_expires_at := None;
     created_at := bson_datetime utcnow |}.

(** The public view returned by registration. *)
Definition registered_view (oid : ObjectId) (payload : RegisterIn.t) : UserOut.t :=
  {| UserOut.id := oid;
     UserOut.username := RegisterIn.username payload;
     UserOut.full_name := RegisterIn.full_name payload;
     UserOut.logged_in := false |}.

(** The message of the protected route. *)
Definition greeting (name : string) : string :=
  "Hello " ++ name ++ ", you are signed in.".

(** * Properties *)

(** Closes [unique_ids] goals on concrete stores. *)
Ltac concrete_unique_ids :=
  unfold unique_ids; simpl; repeat constructor; simpl; intuition discriminate.

(** ** The store *)

Section StoreFacts.

Variable q : UserDoc -> bool.
Variable u : UserDoc -> UserDoc.

Lemma first_match_some (c : collection) (d : UserDoc) :
  first_match q c = Some d -> In d c /\ q d = true.
Proof.
  induction c as [|x c IH]; simpl; [discriminate|].
  destruct (q x) eqn:Hq; intros H.
  - injection H as <-. auto.
  - destruct (IH H). auto.
Qed.

Lemma first_match_none (c : collection) :
  first_match q c = None <-> (forall d, In d c -> q d = false).
Proof.
  induction c as [|x c IH]; simpl.
  - split; [intros _ d []|reflexivity].
  - destruct (q x) eqn:Hq; split.
    + discriminate.
    + intros H. rewrite (H x (or_introl eq_refl)) in Hq. discriminate.
    + intros H d [<-|Hd]; [assumption|]. now apply IH.
    + intros H. apply IH. intros d Hd. apply H. now right.
Qed.

Lemma update_first_none (c : collection) :
  first_match q c = None -> update_first q u c = c.
Proof.
  induction c as [|x c IH]; simpl; [reflexivity|].
  destruct (q x); [discriminate|]. intros H. now rewrite IH.
Qed.

Lemma update_first_Forall (P : UserDoc -> Prop) (c : collection) :
  (forall d, P d -> P (u d)) -> Forall P c -> Forall P (update_first q u c).
Proof.
  intros Hu. induction 1 as [|x c Hx Hc IH]; simpl; [constructor|].
  destruct (q x); constructor; auto.
Qed.

Lemma update_first_Forall2 (R : UserDoc -> UserDoc -> Prop) (c : collection) :
  (forall d, R d d) -> (forall d, q d = true -> R d (u d)) ->
  Forall2 R c (update_first q u c).
Proof.
  intros Hrefl Hu. induction c as [|x c IH]; simpl; [constructor|].
  destruct (q x) eqn:Hq; constructor; auto.
  clear IH. induction c; constructor; auto.
Qed.

Lemma update_first_ids (c : collection) :
  (forall d, _id (u d) = _id d) ->
  map _id (update_first q u c) = map _id c.
Proof.
  intros Hu. induction c as [|x c IH]; simpl; [reflexivity|].
  destruct (q x); simpl; [now rewrite Hu|now rewrite IH].
Qed.

End StoreFacts.

Lemma by_id_true (i : ObjectId) (d : UserDoc) : by_id i d = true <-> _id d = i.
Proof. unfold by_id. apply String.eqb_eq. Qed.

Lemma by_token_true (t : string) (d : UserDoc) :
  by_token t d = true <-> session_token d = Some t.
Proof.
  unfold by_token. destruct (session_token d) as [t'|].
  - rewrite String.eqb_eq. split; congruence.
  - split; discriminate.
Qed.

Lemma by_username_true (n : string) (d : UserDoc) :
  by_username n d = true <-> username d = n.
Proof. unfold by_username. apply String.eqb_eq. Qed.

Lemma unique_ids_eq (c : collection) (d e : UserDoc) :
  unique_ids c -> In d c -> In e c -> _id d = _id e -> d = e.
Proof.
  unfold unique_ids. induction c as [|x c IH]; simpl; [intros _ []|].
  intros Hnd Hd He Hid. inversion Hnd as [|? ? Hx Hc]; subst.
  destruct Hd as [<-|Hd], He as [<-|He]; auto.
  - exfalso. apply Hx. rewrite Hid. now apply in_map.
  - exfalso. apply Hx. rewrite <- Hid. now apply in_map.
Qed.

Lemma first_match_by_id (c : collection) (d : UserDoc) :
  unique_ids c -> In d c -> first_match (by_id (_id d)) c = Some d.
Proof.
  intros Hnd Hd.
  destruct (first_match (by_id (_id d)) c) as [e|] eqn:He.
  - apply first_match_some in He as [He Hq]. apply by_id_true in Hq.
    f_equal. now apply (unique_ids_eq c).
  - rewrite first_match_none in He. specialize (He d Hd).
    assert (by_id (_id d) d = true) by now apply by_id_true. congruence.
Qed.

(** With unique ids, updating the first record of a given id is updating
    every record of that id. *)
Lemma update_first_by_id (u : UserDoc -> UserDoc) (i : ObjectId) (c : collection) :
  unique_ids c ->
  update_first (by_id i) u c = map (fun x => if by_id i x then u x else x) c.
Proof.
  unfold unique_ids. induction c as [|x c IH]; simpl; [reflexivity|].
  intros Hnd. inversion Hnd as [|? ? Hx Hc]; subst.
  destruct (by_id i x) eqn:Hq.
  - f_equal. apply by_id_true in Hq. clear IH Hnd Hc.
    induction c as [|y c IH]; simpl; [reflexivity|].
    destruct (by_id i y) eqn:Hy.
    + exfalso. apply Hx. left. apply by_id_true in Hy. congruence.
    + f_equal. apply IH. intros H. apply Hx. now right.
  - f_equal. now apply IH.
Qed.

Lemma update_first_unique_ids (q : UserDoc -> bool) (u : UserDoc -> UserDoc)
    (c : collection) :
  (forall d, _id (u d) = _id d) -> unique_ids c -> unique_ids (update_first q u c).
Proof. intros Hu. unfold unique_ids. now rewrite update_first_ids. Qed.

(** The updated record is the one found under its id afterwards. *)
Lemma first_match_after_update (u : UserDoc -> UserDoc) (c : collection) (d : UserDoc) :
  (forall e, _id (u e) = _id e) -> unique_ids c -> In d c ->
  first_match (by_id (_id d)) (update_first (by_id (_id d)) u c) = Some (u d).
Proof.
  intros Hu Hnd Hd. rewrite <- (Hu d) at 1.
  apply first_match_by_id.
  - now apply update_first_unique_ids.
  - rewrite update_first_by_id by assumption.
    apply in_map_iff. exists d. split; [|assumption].
    now rewrite (proj2 (by_id_true (_id d) d) eq_refl).
Qed.

(** When [d] is the only holder of [t] and the update leaves the updated
    record without [t], nobody holds [t] afterwards. *)
Lemma token_gone_after_update (u : UserDoc -> UserDoc) (t : string)
    (c : collection) (d : UserDoc) :
  unique_ids c -> holders t c = [d] -> by_token t (u d) = false ->
  first_match (by_token t) (update_first (by_id (_id d)) u c) = None.
Proof.
  intros Hnd Hh Hu. apply first_match_none. intros x Hx.
  rewrite update_first_by_id in Hx by assumption.
  apply in_map_iff in Hx as (y & <- & Hy).
  assert (Hd : In d c).
  { assert (H : In d (holders t c)) by (rewrite Hh; now left).
    apply filter_In in H. tauto. }
  destruct (by_id (_id d) y) eqn:Hq.
  - apply by_id_true in Hq.
    now rewrite (unique_ids_eq c y d Hnd Hy Hd Hq).
  - destruct (by_token t y) eqn:Ht; [|reflexivity].
    assert (H : In y (holders t c)) by (apply filter_In; auto).
    rewrite Hh in H. destruct H as [<-|[]].
    rewrite (proj2 (by_id_true (_id d) d) eq_refl) in Hq. discriminate.
Qed.

(** ** Header parsing *)

Lemma truthy_true (s : string) : truthy s = true <-> s <> "".
Proof.
  unfold truthy. rewrite negb_true_iff. split.
  - intros H. now apply String.eqb_neq.
  - intros H. now apply String.eqb_neq.
Qed.

Lemma partition_shape (scheme token : string) :
  occurs " " scheme = false ->
  partition " " (scheme ++ " " ++ token) = (scheme, " ", token).
Proof.
  induction scheme as [|x r IH]; [reflexivity|].
  cbn [occurs append partition]. intros H.
  apply orb_false_iff in H as [Hx Hr].
  specialize (IH Hr). cbn [append] in IH.
  now rewrite Hx, IH.
Qed.

Lemma partition_inv (s head found tail : string) :
  partition " " s = (head, found, tail) ->
  (s = head ++ " " ++ tail /\ occurs " " head = false /\ found = " ") \/
  (head = s /\ found = "" /\ tail = "").
Proof.
  revert head. induction s as [|x r IH]; simpl; intros head H.
  - injection H as <- <- <-. now right.
  - destruct (Ascii.eqb x " ") eqn:Hx.
    + apply Ascii.eqb_eq in Hx. subst x. injection H as <- <- <-. now left.
    + destruct (partition " " r) as [[h f] t] eqn:Hp.
      injection H as <- <- <-.
      destruct (IH h eq_refl) as [(-> & Ho & ->)|(-> & -> & ->)].
      * left. simpl. rewrite Hx. auto.
      * now right.
Qed.

Lemma small_letter_lower (x y : ascii) :
  In y ["s"; "e"; "i"; "o"; "n"]%char ->
  Ascii.eqb (lower_ascii x) y = same_letter x y.
Proof.
  simpl. intros [<-|[<-|[<-|[<-|[<-|[]]]]]];
    destruct x as [[] [] [] [] [] [] [] []]; vm_compute; reflexivity.
Qed.

(** Lowering the scheme and comparing with "session" is comparing up to
    case. *)
Lemma lower_is_session (a : string) :
  (lower a =? "session") = eq_ignore_case a "session".
Proof.
  repeat (destruct a as [|? a]; cbn [lower String.eqb eq_ignore_case];
          [reflexivity|];
          rewrite small_letter_lower by (simpl; tauto); f_equal).
  destruct a; reflexivity.
Qed.

Lemma header_check_shape (authorization token : string) :
  credential_shape (Some authorization) token ->
  truthy authorization = true /\
  exists scheme,
    partition " " authorization = (scheme, " ", token) /\
    (lower scheme =? "session") = true /\ truthy token = true.
Proof.
  intros (scheme & Heq & Hsp & Hci & Htok). injection Heq as ->. split.
  - apply truthy_true. destruct scheme; discriminate.
  - exists scheme. split; [now apply partition_shape|].
    split; [now rewrite lower_is_session|now apply truthy_true].
Qed.

Lemma header_check_reject (authorization : string) :
  (forall token, ~ credential_shape (Some authorization) token) ->
  forall scheme found token,
    partition " " authorization = (scheme, found, token) ->
    negb (lower scheme =? "session") || negb (truthy token) = true.
Proof.
  intros Hno scheme found token Hp.
  destruct (lower scheme =? "session") eqn:Hl; [|reflexivity].
  destruct (truthy token) eqn:Ht; [|reflexivity].
  exfalso. apply truthy_true in Ht.
  apply partition_inv in Hp as [(-> & Ho & ->)|(-> & -> & ->)].
  - apply (Hno token). exists scheme. rewrite lower_is_session in Hl. auto.
  - now apply Ht.
Qed.

(** What each handler does once the header has the shape: the lookup is
    by the remainder of the header. *)
Lemma require_session_shape (authorization : option string) (token : string)
    (c : collection) :
  credential_shape authorization token ->
  require_session authorization c =
    match first_match (by_token token) c with
    | None => (Raise InvalidSession, c)
    | Some d =>
        if negb (logged_in d) then (Raise SessionInactive, c)
        else if disabled d then (Raise UserDisabled, c)
        else (Return (public_view d), c)
    end.
Proof.
  intros H. destruct authorization as [a|]; [|destruct H as (? & ? & _); discriminate].
  destruct (header_check_shape a token H) as (Ha & scheme & Hp & Hl & Ht).
  unfold require_session. rewrite Ha, Hp, Hl, Ht. simpl.
  unfold bind, get_user_doc_by_token, find_one. rewrite Ht. simpl.
  destruct (first_match (by_token token) c) as [d|]; [|reflexivity].
  destruct (logged_in d); [|reflexivity].
  destruct (disabled d); reflexivity.
Qed.

Lemma signout_shape (authorization : option string) (token : string)
    (c : collection) :
  credential_shape authorization token ->
  signout authorization c =
    match first_match (by_token token) c with
    | None => (Raise InvalidSession, c)
    | Some d => (Return "Signed out", update_first (by_id (_id d)) clear_login_state c)
    end.
Proof.
  intros H. destruct authorization as [a|]; [|destruct H as (? & ? & _); discriminate].
  destruct (header_check_shape a token H) as (Ha & scheme & Hp & Hl & Ht).
  unfold signout. rewrite Ha, Hp, Hl, Ht. simpl.
  unfold bind, get_user_doc_by_token, find_one. rewrite Ht. simpl.
  destruct (first_match (by_token token) c) as [d|]; reflexivity.
Qed.

Lemma require_session_reject (authorization : option string) (c : collection) :
  (forall token, ~ credential_shape authorization token) ->
  require_session authorization c = (Raise MissingAuthHeader, c) \/
  require_session authorization c = (Raise MalformedAuthHeader, c).
Proof.
  intros Hno. destruct authorization as [a|]; [|now left].
  unfold require_session. destruct (truthy a); [|now left].
  destruct (partition " " a) as [[scheme found] token] eqn:Hp.
  rewrite (header_check_reject a Hno scheme found token Hp). now right.
Qed.

Lemma signout_reject (authorization : option string) (c : collection) :
  (forall token, ~ credential_shape authorization token) ->
  signout authorization c = (Raise MissingAuthHeader, c) \/
  signout authorization c = (Raise MalformedSignoutHeader, c).
Proof.
  intros Hno. destruct authorization as [a|]; [|now left].
  unfold signout. destruct (truthy a); [|now left].
  destruct (partition " " a) as [[scheme found] token] eqn:Hp.
  rewrite (header_check_reject a Hno scheme found token Hp). now right.
Qed.

(** The shape is decided by the header alone. *)
Lemma credential_shape_dec (authorization : option string) :
  (exists token, credential_shape authorization token) \/
  (forall token, ~ credential_shape authorization token).
Proof.
  destruct authorization as [a|].
  2:{ right. intros t (? & ? & _). discriminate. }
  destruct (partition " " a) as [[scheme found] token] eqn:Hp.
  destruct (eq_ignore_case scheme "session") eqn:Hl.
  2:{ right. intros t H. destruct (header_check_shape a t H) as (_ & s & Hp' & Hl' & _).
      rewrite Hp in Hp'. injection Hp' as -> _ _.
      rewrite lower_is_session in Hl'. congruence. }
  destruct (truthy token) eqn:Ht.
  2:{ right. intros t H. destruct (header_check_shape a t H) as (_ & s & Hp' & _ & Ht').
      rewrite Hp in Hp'. injection Hp' as _ _ ->. congruence. }
  apply truthy_true in Ht.
  apply partition_inv in Hp as [(-> & Ho & ->)|(-> & -> & ->)].
  - left. exists token, scheme. auto.
  - now destruct Ht.
Qed.

Lemma credential_shape_plain (word token : string) :
  In word ["Session"; "SESSION"; "session"] -> token <> "" ->
  credential_shape (Some (word ++ " " ++ token)) token.
Proof.
  intros Hw Ht. exists word. split; [reflexivity|].
  simpl in Hw. destruct Hw as [<-|[<-|[<-|[]]]]; auto.
Qed.

Lemma credential_shape_token (authorization : option string) (t1 t2 : string) :
  credential_shape authorization t1 -> credential_shape authorization t2 -> t1 = t2.
Proof.
  intros H1 H2. destruct authorization as [a|]; [|destruct H1 as (? & ? & _); discriminate].
  destruct (header_check_shape a t1 H1) as (_ & s1 & Hp1 & _).
  destruct (header_check_shape a t2 H2) as (_ & s2 & Hp2 & _).
  congruence.
Qed.

Lemma first_match_filter (q : UserDoc -> bool) (c : collection) :
  first_match q c = hd_error (filter q c).
Proof.
  induction c as [|x c IH]; simpl; [reflexivity|].
  destruct (q x); [reflexivity|assumption].
Qed.

Lemma same_but_expiry_first_match (t : string) (c c2 : collection) :
  Forall2 same_but_expiry c c2 ->
  (first_match (by_token t) c = None /\ first_match (by_token t) c2 = None) \/
  (exists d d2, first_match (by_token t) c = Some d /\
                first_match (by_token t) c2 = Some d2 /\ same_but_expiry d d2).
Proof.
  induction 1 as [|x y c c2 Hxy Hc IH]; simpl; [now left|].
  assert (Hq : by_token t y = by_token t x) by (rewrite Hxy; reflexivity).
  rewrite Hq. destruct (by_token t x); [|assumption].
  right. exists x, y. auto.
Qed.

(** ** Protected access *)

(** C2. A header carrying token [t] is answered by the first record that
    holds [t], the checks being taken in this order: no such record,
    InvalidSession; record not logged in, SessionInactive; record
    disabled, UserDisabled (a disabled record never gets through);
    otherwise the public view with logged_in true.  The stored expiry
    plays no part: stores that differ only in [session_expires_at] give
    the same outcome. *)
Theorem C2_authenticate (authorization : option string) (t : string) (c : collection) :
  credential_shape authorization t ->
  (first_match (by_token t) c = None ->
     require_session authorization c = (Raise InvalidSession, c)) /\
  (forall d, first_match (by_token t) c = Some d -> logged_in d = false ->
     require_session authorization c = (Raise SessionInactive, c)) /\
  (forall d, first_match (by_token t) c = Some d ->
     logged_in d = true -> disabled d = true ->
     require_session authorization c = (Raise UserDisabled, c)) /\
  (forall d, first_match (by_token t) c = Some d -> disabled d = true ->
     forall out c', require_session authorization c <> (Return out, c')) /\
  (forall d, first_match (by_token t) c = Some d ->
     logged_in d = true -> disabled d = false ->
     require_session authorization c = (Return (public_view d), c) /\
     UserOut.logged_in (public_view d) = true) /\
  (forall c2, Forall2 same_but_expiry c c2 ->
     fst (require_session authorization c2) = fst (require_session authorization c)).
Proof.
  intros S. rewrite (require_session_shape _ _ c S).
  split; [|split; [|split; [|split; [|split]]]].
  - now intros ->.
  - now intros d -> ->.
  - now intros d -> -> ->.
  - intros d -> Hd out c'. rewrite Hd. destruct (logged_in d); discriminate.
  - intros d -> -> ->. split; reflexivity.
  - intros c2 H. rewrite (require_session_shape _ _ c2 S).
    destruct (same_but_expiry_first_match t c c2 H) as [[-> ->]|(d & d2 & -> & -> & Hd)];
      [reflexivity|].
    rewrite Hd. simpl.
    destruct (logged_in d); [|reflexivity].
    destruct (disabled d); reflexivity.
Qed.

Lemma C2_authenticate_witness :
  credential_shape (Some "Session t1") "t1" /\
  require_session (Some "Session t1") example_store =
    (Return (public_view alice_active), example_store).
Proof.
  assert (S : credential_shape (Some "Session t1") "t1").
  { exists "Session". repeat split; try reflexivity. discriminate. }
  split; [exact S|].
  destruct (C2_authenticate (Some "Session t1") "t1" example_store S)
    as (_ & _ & _ & _ & H & _).
  apply (H alice_active); reflexivity.
Defined.

(** ** The credential header *)

(** C10. Signout and protected access accept a header exactly when it
    splits at its first space into a scheme equal to "session" up to case
    and a non-empty remainder; the lookup is by that whole remainder,
    spaces included, so SESSION and session work like Session. *)
Theorem C10_credential_header (authorization : option string) (c : collection) :
  ((exists token, credential_shape authorization token) <->
     signout_accepts (fst (signout authorization c))) /\
  ((exists token, credential_shape authorization token) <->
     session_accepts (fst (require_session authorization c))) /\
  (forall token, credential_shape authorization token ->
     signout authorization c =
       match first_match (by_token token) c with
       | None => (Raise InvalidSession, c)
       | Some d =>
           (Return "Signed out", update_first (by_id (_id d)) clear_login_state c)
       end /\
     require_session authorization c =
       match first_match (by_token token) c with
       | None => (Raise InvalidSession, c)
       | Some d =>
           if negb (logged_in d) then (Raise SessionInactive, c)
           else if disabled d then (Raise UserDisabled, c)
           else (Return (public_view d), c)
       end) /\
  (forall t1 t2, credential_shape authorization t1 ->
     credential_shape authorization t2 -> t1 = t2) /\
  (forall token, token <> "" ->
     credential_shape (Some ("SESSION " ++ token)) token /\
     credential_shape (Some ("session " ++ token)) token /\
     credential_shape (Some ("Session " ++ token)) token) /\
  credential_shape (Some "sEsSiOn a b  c") "a b  c".
Proof.
  split; [|split; [|split; [|split; [|split]]]].
  - split.
    + intros [token S]. rewrite (signout_shape _ _ c S).
      destruct (first_match (by_token token) c); split; discriminate.
    + intros [H1 H2].
      destruct (credential_shape_dec authorization) as [S|N]; [exact S|].
      destruct (signout_reject authorization c N) as [E|E];
        rewrite E in H1, H2; simpl in H1, H2; congruence.
  - split.
    + intros [token S]. rewrite (require_session_shape _ _ c S).
      destruct (first_match (by_token token) c) as [d|]; [|split; discriminate].
      destruct (logged_in d); [|split; discriminate].
      destruct (disabled d); split; discriminate.
    + intros [H1 H2].
      destruct (credential_shape_dec authorization) as [S|N]; [exact S|].
      destruct (require_session_reject authorization c N) as [E|E];
        rewrite E in H1, H2; simpl in H1, H2; congruence.
  - intros token S. split.
    + now apply signout_shape.
    + now apply require_session_shape.
  - apply credential_shape_token.
  - intros token Ht. repeat split.
    + apply (credential_shape_plain "SESSION"); simpl; auto.
    + apply (credential_shape_plain "session"); simpl; auto.
    + apply (credential_shape_plain "Session"); simpl; auto.
  - exists "sEsSiOn". repeat split; try reflexivity. discriminate.
Qed.

Lemma C10_credential_header_witness :
  credential_shape (Some "SESSION t1") "t1" /\
  signout (Some "SESSION t1") example_store =
    (Return "Signed out", [alice_signed_out; bob_idle; carol_disabled]) /\
  signout_accepts (fst (signout (Some "SESSION t1") example_store)).
Proof.
  assert (S : credential_shape (Some "SESSION t1") "t1").
  { exists "SESSION". repeat split; try reflexivity. discriminate. }
  destruct (C10_credential_header (Some "SESSION t1") example_store)
    as (A & _ & L & _).
  split; [exact S|]. split.
  - exact (proj1 (L "t1" S)).
  - apply (proj1 A). exists "t1". exact S.
Defined.

(** ** Signout *)

(** C8. When the token of a well-formed signout header matches a record,
    signout succeeds whatever the record's [disabled] and [logged_in]
    flags are, the matched record ends logged out without token and
    expiry, and in every record the fields [_id], [username],
    [hashed_password], [full_name], [disabled] and [created_at] are as
    before; records other than the matched one are unchanged. *)
Theorem C8_signout_frame (authorization : option string) (token : string)
    (c : collection) (d : UserDoc) :
  credential_shape authorization token ->
  unique_ids c ->
  first_match (by_token token) c = Some d ->
  exists c',
    signout authorization c = (Return "Signed out", c') /\
    (exists d', first_match (by_id (_id d)) c' = Some d' /\
       logged_in d' = false /\ session_token d' = None /\
       session_expires_at d' = None /\ same_identity d d') /\
    Forall2 same_identity c c' /\
    Forall2 (fun x x' => _id x <> _id d -> x' = x) c c'.
Proof.
  intros S Hnd Hd.
  exists (update_first (by_id (_id d)) clear_login_state c).
  rewrite (signout_shape _ _ c S), Hd.
  split; [reflexivity|]. split; [|split].
  - exists (clear_login_state d). split.
    + apply first_match_after_update; auto.
      now apply (first_match_some (by_token token) c d).
    + unfold same_identity. simpl. tauto.
  - apply update_first_Forall2; unfold same_identity; simpl; tauto.
  - apply update_first_Forall2; [reflexivity|].
    intros x Hx Hne. apply by_id_true in Hx. contradiction.
Qed.

Lemma C8_signout_frame_witness :
  credential_shape (Some "Session t3") "t3" /\
  unique_ids example_store /\
  first_match (by_token "t3") example_store = Some carol_disabled /\
  disabled carol_disabled = true /\ logged_in carol_disabled = false /\
  exists c',
    signout (Some "Session t3") example_store = (Return "Signed out", c') /\
    (exists d', first_match (by_id "id3") c' = Some d' /\
       logged_in d' = false /\ session_token d' = None /\
       session_expires_at d' = None /\ same_identity carol_disabled d') /\
    Forall2 same_identity example_store c' /\
    Forall2 (fun x x' => _id x <> "id3" -> x' = x) example_store c'.
Proof.
  assert (S : credential_shape (Some "Session t3") "t3").
  { exists "Session". repeat split; try reflexivity. discriminate. }
  assert (U : unique_ids example_store).
  { concrete_unique_ids. }
  split; [exact S|]. split; [exact U|]. repeat split.
  exact (C8_signout_frame (Some "Session t3") "t3" example_store carol_disabled
           S U eq_refl).
Defined.

(** ** The handlers as case analyses *)

(** The expiry is computed exactly when it is in range, and it is then
    the sum; otherwise the computation raises OverflowError. *)
Lemma session_expiry_return (settings : Settings) (utcnow expires : datetime) :
  session_expiry settings utcnow = Return expires <->
  expiry_in_range settings utcnow /\
  expires = (utcnow + SESSION_TOKEN_TTL_DAYS settings * 86400000000)%Z.
Proof.
  unfold session_expiry, timedelta, datetime_add, expiry_in_range, datetime_end.
  destruct ((-999999999 <=? SESSION_TOKEN_TTL_DAYS settings)
            && (SESSION_TOKEN_TTL_DAYS settings <=? 999999999))%Z eqn:Hd.
  - apply andb_true_iff in Hd as [H1 H2].
    apply Z.leb_le in H1. apply Z.leb_le in H2.
    destruct ((0 <=? utcnow + SESSION_TOKEN_TTL_DAYS settings * 86400000000)
              && (utcnow + SESSION_TOKEN_TTL_DAYS settings * 86400000000
                  <? 315537897600000000))%Z eqn:Hr.
    + apply andb_true_iff in Hr as [H3 H4].
      apply Z.leb_le in H3. apply Z.ltb_lt in H4.
      split; [intros H; injection H as <-; auto|].
      intros [_ ->]. reflexivity.
    + split; [discriminate|]. intros [[_ [H3 H4]] _].
      apply andb_false_iff in Hr as [Hr|Hr];
        [apply Z.leb_gt in Hr|apply Z.ltb_ge in Hr]; lia.
  - split; [discriminate|]. intros [[[H1 H2] _] _].
    apply andb_false_iff in Hd as [Hd|Hd]; apply Z.leb_gt in Hd; lia.
Qed.

Lemma session_expiry_raise (settings : Settings) (utcnow : datetime) (e : exn) :
  session_expiry settings utcnow = Raise e ->
  e = OverflowError /\ ~ expiry_in_range settings utcnow.
Proof.
  intros H. split.
  - unfold session_expiry, timedelta, datetime_add in H.
    destruct (_ && _)%bool in H; [|congruence].
    destruct (_ && _)%bool in H; [discriminate|congruence].
  - intros Hr.
    assert (E : session_expiry settings utcnow
                = Return (utcnow + SESSION_TOKEN_TTL_DAYS settings * 86400000000)%Z)
      by (apply session_expiry_return; auto).
    congruence.
Qed.

Lemma session_expiry_out_of_range (settings : Settings) (utcnow : datetime) :
  ~ expiry_in_range settings utcnow ->
  session_expiry settings utcnow = Raise OverflowError.
Proof.
  intros H. destruct (session_expiry settings utcnow) as [x|e] eqn:E.
  - apply session_expiry_return in E as [Hr _]. contradiction.
  - apply session_expiry_raise in E as [-> _]. reflexivity.
Qed.

Lemma login_cases (settings : Settings) (verify : string -> string -> outcome bool)
    (uuid4_hex : string) (utcnow : datetime) (body : LoginIn.t) (c : collection) :
  login settings verify uuid4_hex utcnow body c =
    match first_match (by_username (LoginIn.username body)) c with
    | None => (Raise InvalidCredentials, c)
    | Some d =>
        match hashed_password d with
        | None => (Raise InvalidCredentials, c)
        | Some h =>
            if truthy h then
              match verify_password verify (LoginIn.password body) h with
              | Raise e => (Raise e, c)
              | Return false => (Raise InvalidCredentials, c)
              | Return true =>
                  if disabled d then (Raise UserDisabled, c)
                  else
                    match session_expiry settings utcnow with
                    | Raise e => (Raise e, c)
                    | Return expires =>
                        (Return {| TokenOut.session_token := uuid4_hex;
                                   TokenOut.expires_at := Some expires |},
                         update_first (by_id (_id d))
                           (set_login_state uuid4_hex expires) c)
                    end
              end
            else (Raise InvalidCredentials, c)
        end
    end.
Proof.
  unfold login, bind, get_user_doc_by_username, find_one.
  destruct (first_match (by_username (LoginIn.username body)) c) as [d|];
    [|reflexivity].
  destruct (hashed_password d) as [h|]; [|reflexivity].
  destruct (truthy h); [|reflexivity]. simpl.
  unfold bind, lift.
  destruct (verify_password verify (LoginIn.password body) h) as [[|]|e];
    try reflexivity.
  simpl. destruct (disabled d); [reflexivity|].
  unfold session_expiry, bind, lift.
  destruct (timedelta (SESSION_TOKEN_TTL_DAYS settings)) as [delta|e];
    [|reflexivity].
  destruct (datetime_add utcnow delta); reflexivity.
Qed.

Lemma register_cases (hash : string -> string -> string) (oid : ObjectId)
    (utcnow : datetime) (salt : string) (user : RegisterIn.t) (c : collection) :
  register hash oid utcnow salt user c =
    match first_match (by_username (RegisterIn.username user)) c with
    | Some _ => (Raise DuplicateUsername, c)
    | None =>
        if (MAX_PASSWORD_SIZE <? String.length (RegisterIn.password user))%nat
        then (Raise PasswordSizeError, c)
        else if existsb (by_id oid) c then (Raise DuplicateKeyError, c)
        else (Return (registered_view oid user),
              (c ++ [registered_doc hash oid utcnow salt user])%list)
    end.
Proof.
  unfold register, bind, get_user_doc_by_username, find_one.
  destruct (first_match (by_username (RegisterIn.username user)) c) as [d|] eqn:Hf;
    [reflexivity|].
  unfold create_user_doc, bind, lift, insert_one, hash_password, pwd_context_hash.
  destruct (MAX_PASSWORD_SIZE <? String.length (RegisterIn.password user))%nat;
    [reflexivity|].
  cbn [_id username].
  assert (E : existsb (fun e => by_id oid e || by_username (RegisterIn.username user) e) c
              = existsb (by_id oid) c).
  { rewrite first_match_none in Hf. clear - Hf.
    induction c as [|x c IH]; simpl; [reflexivity|].
    rewrite (Hf x (or_introl eq_refl)), orb_false_r. f_equal.
    apply IH. intros d Hd. apply Hf. now right. }
  rewrite E. destruct (existsb (by_id oid) c); reflexivity.
Qed.

(** A login that returns has found the user, verified the password,
    found the record enabled, and rewritten it. *)
Lemma login_success (settings : Settings) (verify : string -> string -> outcome bool)
    (uuid4_hex : string) (utcnow : datetime) (body : LoginIn.t)
    (c c' : collection) (out : TokenOut.t) :
  login settings verify uuid4_hex utcnow body c = (Return out, c') ->
  exists d h,
    first_match (by_username (LoginIn.username body)) c = Some d /\
    hashed_password d = Some h /\ h <> "" /\
    verify_password verify (LoginIn.password body) h = Return true /\
    disabled d = false /\
    expiry_in_range settings utcnow /\
    out = {| TokenOut.session_token := uuid4_hex;
             TokenOut.expires_at :=
               Some (utcnow + SESSION_TOKEN_TTL_DAYS settings * 86400000000)%Z |} /\
    c' = update_first (by_id (_id d))
           (set_login_state uuid4_hex
              (utcnow + SESSION_TOKEN_TTL_DAYS settings * 86400000000)%Z) c.
Proof.
  rewrite login_cases. intros H.
  destruct (first_match (by_username (LoginIn.username body)) c) as [d|];
    [|discriminate].
  destruct (hashed_password d) as [h|] eqn:Hh; [|discriminate].
  destruct (truthy h) eqn:Ht; [|discriminate].
  destruct (verify_password verify (LoginIn.password body) h) as [[|]|e] eqn:Hv;
    try discriminate.
  destruct (disabled d) eqn:Hd; [discriminate|].
  destruct (session_expiry settings utcnow) as [expires|e] eqn:He; [|discriminate].
  injection H as <- <-.
  apply session_expiry_return in He as [Hr ->].
  exists d, h. apply truthy_true in Ht. repeat split; auto; apply Hr.
Qed.

Lemma first_match_map (q : UserDoc -> bool) (f : UserDoc -> UserDoc) (c : collection) :
  (forall x, q (f x) = q x) ->
  first_match q (map f c) = option_map f (first_match q c).
Proof.
  intros Hq. induction c as [|x c IH]; simpl; [reflexivity|].
  rewrite Hq. destruct (q x); [reflexivity|assumption].
Qed.

Lemma holders_first_match (t : string) (c : collection) (d : UserDoc) :
  holders t c = [d] -> first_match (by_token t) c = Some d /\ In d c.
Proof.
  intros H. split.
  - rewrite first_match_filter. unfold holders in H. now rewrite H.
  - assert (Hin : In d (holders t c)) by (rewrite H; now left).
    apply filter_In in Hin. tauto.
Qed.

Lemma session_header_shape (t : string) :
  t <> "" -> credential_shape (Some ("Session " ++ t)) t.
Proof. intros Ht. apply (credential_shape_plain "Session"); simpl; auto. Qed.

(** ** Signout, then protected access *)

(** C1, as the code has it. When [d] is the one record holding the
    non-empty token [t], signout with [Session t] succeeds and leaves
    that record logged out and without a token, so [t] matches no record
    any more and protected access with [Session t] then fails with
    InvalidSession. *)
Theorem C1_signout_then_access (t : string) (c : collection) (d : UserDoc) :
  t <> "" ->
  unique_ids c ->
  holders t c = [d] ->
  exists c',
    signout (Some ("Session " ++ t)) c = (Return "Signed out", c') /\
    (exists d', first_match (by_id (_id d)) c' = Some d' /\
       logged_in d' = false /\ session_token d' = None) /\
    first_match (by_token t) c' = None /\
    require_session (Some ("Session " ++ t)) c' = (Raise InvalidSession, c').
Proof.
  intros Ht Hnd Hh.
  destruct (holders_first_match t c d Hh) as [Hf Hin].
  pose proof (session_header_shape t Ht) as S.
  exists (update_first (by_id (_id d)) clear_login_state c).
  assert (Hgone : first_match (by_token t)
                    (update_first (by_id (_id d)) clear_login_state c) = None)
    by (now apply token_gone_after_update).
  split; [|split; [|split]].
  - now rewrite (signout_shape _ _ c S), Hf.
  - exists (clear_login_state d). split; [|split; reflexivity].
    now apply first_match_after_update.
  - exact Hgone.
  - now rewrite (require_session_shape _ _ _ S), Hgone.
Qed.

Lemma C1_signout_then_access_witness :
  "t1" <> "" /\ unique_ids example_store /\
  holders "t1" example_store = [alice_active] /\
  exists c',
    signout (Some "Session t1") example_store = (Return "Signed out", c') /\
    (exists d', first_match (by_id "id1") c' = Some d' /\
       logged_in d' = false /\ session_token d' = None) /\
    first_match (by_token "t1") c' = None /\
    require_session (Some "Session t1") c' = (Raise InvalidSession, c').
Proof.
  assert (N : "t1" <> "") by discriminate.
  assert (U : unique_ids example_store).
  { concrete_unique_ids. }
  split; [exact N|]. split; [exact U|]. split; [reflexivity|].
  exact (C1_signout_then_access "t1" example_store alice_active N U eq_refl).
Defined.

(** C1 as the specification words it fails: after signout the token is
    not findable and the error is InvalidSession, not SessionInactive. *)
Lemma C1_counterexample :
  session_token alice_active = Some "t1" /\
  In alice_active example_store /\
  fst (signout (Some "Session t1") example_store) = Return "Signed out" /\
  first_match (by_token "t1") (snd (signout (Some "Session t1") example_store)) = None /\
  fst (require_session (Some "Session t1")
         (snd (signout (Some "Session t1") example_store)))
    = Raise InvalidSession /\
  fst (require_session (Some "Session t1")
         (snd (signout (Some "Session t1") example_store)))
    <> Raise SessionInactive.
Proof.
  split; [reflexivity|]. split; [now left|].
  split; [reflexivity|]. split; [reflexivity|].
  split; [reflexivity|]. vm_compute. discriminate.
Qed.

(** ** A second login *)

(** C4, as the code has it. Let [d] be the record of the user and the
    one holder of the non-empty token [t1]. A successful login of that user that draws a
    token [t2] other than [t1] stores [t2] in the record's single token
    field; afterwards [t1] matches no record, protected access with
    [Session t1] fails with InvalidSession, and any token that
    authenticates as this user is [t2]. *)
Theorem C4_second_login (settings : Settings)
    (verify : string -> string -> outcome bool)
    (t1 t2 : string) (utcnow : datetime) (body : LoginIn.t)
    (c c' : collection) (d : UserDoc) (out : TokenOut.t) :
  unique_ids c ->
  first_match (by_username (LoginIn.username body)) c = Some d ->
  holders t1 c = [d] ->
  t1 <> "" ->
  t2 <> t1 ->
  login settings verify t2 utcnow body c = (Return out, c') ->
  TokenOut.session_token out = t2 /\
  (exists d', first_match (by_id (_id d)) c' = Some d' /\
     session_token d' = Some t2 /\ logged_in d' = true) /\
  first_match (by_token t1) c' = None /\
  require_session (Some ("Session " ++ t1)) c' = (Raise InvalidSession, c') /\
  (forall authorization t view,
     credential_shape authorization t ->
     require_session authorization c' = (Return view, c') ->
     UserOut.id view = _id d -> t = t2).
Proof.
  intros Hnd Hu Hh Ht1 Hne Hlogin.
  destruct (holders_first_match t1 c d Hh) as [Hf Hin].
  apply login_success in Hlogin as (d0 & h & Hu0 & _ & _ & _ & _ & _ & -> & ->).
  rewrite Hu in Hu0. injection Hu0 as <-.
  set (expires := (utcnow + SESSION_TOKEN_TTL_DAYS settings * 86400000000)%Z).
  set (u := set_login_state t2 expires).
  assert (Hafter : first_match (by_id (_id d)) (update_first (by_id (_id d)) u c)
                   = Some (u d))
    by (now apply first_match_after_update).
  assert (Hgone : first_match (by_token t1) (update_first (by_id (_id d)) u c) = None).
  { apply token_gone_after_update; auto.
    unfold by_token. simpl. now apply String.eqb_neq. }
  split; [reflexivity|]. split; [|split; [|split]].
  - exists (u d). auto.
  - exact Hgone.
  - now rewrite (require_session_shape _ _ _ (session_header_shape t1 Ht1)), Hgone.
  - intros authorization t view S Hr Hid.
    rewrite (require_session_shape _ _ _ S) in Hr.
    destruct (first_match (by_token t) (update_first (by_id (_id d)) u c))
      as [e|] eqn:He; [|discriminate].
    destruct (logged_in e); [|discriminate].
    destruct (disabled e); [discriminate|].
    simpl in Hr. injection Hr as <-. simpl in Hid.
    apply first_match_some in He as [He Hq].
    apply first_match_some in Hafter as [Hud _].
    assert (Heq : e = u d).
    { apply (unique_ids_eq (update_first (by_id (_id d)) u c)); auto.
      now apply update_first_unique_ids. }
    subst e. apply by_token_true in Hq. simpl in Hq. congruence.
Qed.

Lemma C4_second_login_witness :
  unique_ids example_store /\
  first_match (by_username "alice") example_store = Some alice_active /\
  holders "t1" example_store = [alice_active] /\
  "t1" <> "" /\ "t2" <> "t1" /\
  exists out c',
    login default_settings example_verify "t2" 5000%Z alice_login example_store
      = (Return out, c') /\
    TokenOut.session_token out = "t2" /\
    first_match (by_token "t1") c' = None /\
    require_session (Some "Session t1") c' = (Raise InvalidSession, c').
Proof.
  assert (U : unique_ids example_store).
  { concrete_unique_ids. }
  assert (N1 : "t1" <> "") by discriminate.
  assert (N2 : "t2" <> "t1") by discriminate.
  split; [exact U|]. split; [reflexivity|]. split; [reflexivity|].
  split; [exact N1|]. split; [exact N2|].
  eexists. eexists. split; [vm_compute; reflexivity|].
  destruct (C4_second_login default_settings example_verify "t1" "t2" 5000%Z
              alice_login example_store _ alice_active _
              U eq_refl eq_refl N1 N2 eq_refl) as (A & _ & B & C & _).
  split; [exact A|]. split; [exact B|exact C].
Defined.

(** C4 as the specification words it fails: login does not check that
    the token it draws is new. When the draw repeats the token the user
    already holds, the second login succeeds and the first token goes on
    authenticating. *)
Lemma C4_counterexample :
  first_match (by_username (LoginIn.username alice_login)) example_store
    = Some alice_active /\
  session_token alice_active = Some "t1" /\
  fst (login default_settings example_verify "t1" 5000%Z alice_login example_store)
    = Return {| TokenOut.session_token := "t1";
                TokenOut.expires_at := Some 2592000005000%Z |} /\
  fst (require_session (Some "Session t1")
         (snd (login default_settings example_verify "t1" 5000%Z alice_login
                 example_store)))
    = Return (public_view alice_active) /\
  fst (require_session (Some "Session t1")
         (snd (login default_settings example_verify "t1" 5000%Z alice_login
                 example_store)))
    <> Raise InvalidSession.
Proof.
  split; [reflexivity|]. split; [reflexivity|].
  split; [vm_compute; reflexivity|]. split; [vm_compute; reflexivity|].
  vm_compute. discriminate.
Qed.

(** ** The token/flag invariant *)

Lemma session_inv_set (t : string) (e : datetime) (d : UserDoc) :
  session_inv (set_login_state t e d).
Proof. unfold session_inv. simpl. split; [reflexivity|discriminate]. Qed.

Lemma session_inv_clear (d : UserDoc) : session_inv (clear_login_state d).
Proof. unfold session_inv. simpl. split; [congruence|discriminate]. Qed.

(** C5. If every record has a token exactly when it is logged in, then
    so it is after register, login and signout, whatever their outcome
    (and protected access leaves the store alone): register appends a
    record that is logged out and has no token, login rewrites one record
    with [set_login_state], which sets flag and token together, and
    signout rewrites one record with [clear_login_state], which clears
    both together. *)
Theorem C5_session_invariant (c : collection) :
  Forall session_inv c ->
  (forall hash oid utcnow salt user,
     Forall session_inv (snd (register hash oid utcnow salt user c)) /\
     (forall out c', register hash oid utcnow salt user c = (Return out, c') ->
        exists d, c' = (c ++ [d])%list /\
                  logged_in d = false /\ session_token d = None)) /\
  (forall settings verify uuid4_hex utcnow body,
     Forall session_inv (snd (login settings verify uuid4_hex utcnow body c)) /\
     (forall out c',
        login settings verify uuid4_hex utcnow body c = (Return out, c') ->
        exists d expires,
          c' = update_first (by_id (_id d)) (set_login_state uuid4_hex expires) c)) /\
  (forall authorization,
     Forall session_inv (snd (signout authorization c)) /\
     (forall msg c', signout authorization c = (Return msg, c') ->
        exists d, c' = update_first (by_id (_id d)) clear_login_state c)) /\
  (forall authorization, snd (require_session authorization c) = c) /\
  (forall t e d,
     logged_in (set_login_state t e d) = true /\
     session_token (set_login_state t e d) = Some t) /\
  (forall d,
     logged_in (clear_login_state d) = false /\
     session_token (clear_login_state d) = None).
Proof.
  intros Hc. split; [|split; [|split; [|split; [|split]]]].
  - intros hash oid utcnow salt user. rewrite register_cases.
    destruct (first_match (by_username (RegisterIn.username user)) c);
      [split; [exact Hc|discriminate]|].
    destruct (MAX_PASSWORD_SIZE <? String.length (RegisterIn.password user))%nat;
      [split; [exact Hc|discriminate]|].
    destruct (existsb (by_id oid) c); [split; [exact Hc|discriminate]|].
    split.
    + simpl. apply Forall_app. split; [exact Hc|].
      constructor; [|constructor].
      unfold session_inv. simpl. split; [congruence|discriminate].
    + intros out c' H. injection H as _ <-. eexists. split; [reflexivity|].
      split; reflexivity.
  - intros settings verify uuid4_hex utcnow body. rewrite login_cases.
    destruct (first_match (by_username (LoginIn.username body)) c) as [d|];
      [|split; [exact Hc|discriminate]].
    destruct (hashed_password d) as [h|]; [|split; [exact Hc|discriminate]].
    destruct (truthy h); [|split; [exact Hc|discriminate]].
    destruct (verify_password verify (LoginIn.password body) h) as [[|]|e];
      try (split; [exact Hc|discriminate]).
    destruct (disabled d); [split; [exact Hc|discriminate]|].
    destruct (session_expiry settings utcnow) as [expires|e];
      [|split; [exact Hc|discriminate]].
    split.
    + simpl. apply update_first_Forall; [|exact Hc].
      intros x _. apply session_inv_set.
    + intros out c' H. injection H as _ <-. eexists. eexists. reflexivity.
  - intros authorization.
    destruct (credential_shape_dec authorization) as [[t S]|N].
    + rewrite (signout_shape _ _ c S).
      destruct (first_match (by_token t) c) as [d|];
        [|split; [exact Hc|discriminate]].
      split.
      * simpl. apply update_first_Forall; [|exact Hc].
        intros x _. apply session_inv_clear.
      * intros msg c' H. injection H as _ <-. now exists d.
    + destruct (signout_reject authorization c N) as [E|E]; rewrite E;
        (split; [exact Hc|discriminate]).
  - intros authorization.
    destruct (credential_shape_dec authorization) as [[t S]|N].
    + rewrite (require_session_shape _ _ c S).
      destruct (first_match (by_token t) c) as [d|]; [|reflexivity].
      destruct (logged_in d); [|reflexivity].
      destruct (disabled d); reflexivity.
    + destruct (require_session_reject authorization c N) as [E|E];
        now rewrite E.
  - intros t e d. split; reflexivity.
  - intros d. split; reflexivity.
Qed.

Lemma C5_session_invariant_witness :
  Forall session_inv [alice_active; bob_idle] /\
  Forall session_inv
    (snd (login default_settings example_verify "t2" 5000%Z alice_login
            [alice_active; bob_idle])) /\
  Forall session_inv (snd (signout (Some "Session t1") [alice_active; bob_idle])) /\
  Forall session_inv
    (snd (register example_hash "id9" 7000%Z "salt" alice_in [alice_active; bob_idle])).
Proof.
  assert (H : Forall session_inv [alice_active; bob_idle]).
  { repeat constructor; try discriminate; simpl; congruence. }
  split; [exact H|].
  destruct (C5_session_invariant [alice_active; bob_idle] H) as (R & L & S & _).
  split; [|split].
  - exact (proj1 (L default_settings example_verify "t2" 5000%Z alice_login)).
  - exact (proj1 (S (Some "Session t1"))).
  - exact (proj1 (R example_hash "id9" 7000%Z "salt" alice_in)).
Defined.

(** ** Register *)

(** C6. Registering a username that some record of the store already
    carries fails with DuplicateUsername and leaves the store as it was. *)
Theorem C6_duplicate_username (hash : string -> string -> string)
    (oid : ObjectId) (utcnow : datetime) (salt : string)
    (user : RegisterIn.t) (c : collection) :
  (exists d, In d c /\ username d = RegisterIn.username user) ->
  register hash oid utcnow salt user c = (Raise DuplicateUsername, c).
Proof.
  intros (d & Hd & Hu). rewrite register_cases.
  destruct (first_match (by_username (RegisterIn.username user)) c) eqn:Hf;
    [reflexivity|].
  rewrite first_match_none in Hf. specialize (Hf d Hd).
  apply by_username_true in Hu. congruence.
Qed.

Lemma C6_duplicate_username_witness :
  (exists d, In d example_store /\ username d = RegisterIn.username alice_in) /\
  register example_hash "id9" 7000%Z "salt" alice_in example_store
    = (Raise DuplicateUsername, example_store).
Proof.
  assert (H : exists d, In d example_store /\ username d = RegisterIn.username alice_in).
  { exists alice_active. split; [now left|reflexivity]. }
  split; [exact H|].
  exact (C6_duplicate_username example_hash "id9" 7000%Z "salt" alice_in
           example_store H).
Defined.

(** ** Login *)

(** C3, as the code has it. Login fails with the one error
    InvalidCredentials, store unchanged, when no record carries the
    username, when the record's hash is missing or empty, and when
    verification against it answers false; it fails with UserDisabled
    when the password verifies and the record is disabled; with a
    verified password and an enabled record it raises OverflowError,
    store unchanged, when the expiry is not a representable datetime; and
    it succeeds exactly when a record carries the username, the password
    verifies against its hash, the record is not disabled and the expiry
    is representable. *)
Theorem C3_login (settings : Settings) (verify : string -> string -> outcome bool)
    (uuid4_hex : string) (utcnow : datetime) (body : LoginIn.t) (c : collection) :
  (first_match (by_username (LoginIn.username body)) c = None ->
     login settings verify uuid4_hex utcnow body c = (Raise InvalidCredentials, c)) /\
  (forall d, first_match (by_username (LoginIn.username body)) c = Some d ->
     truthy_opt (hashed_password d) = false ->
     login settings verify uuid4_hex utcnow body c = (Raise InvalidCredentials, c)) /\
  (forall d h, first_match (by_username (LoginIn.username body)) c = Some d ->
     hashed_password d = Some h -> h <> "" ->
     verify_password verify (LoginIn.password body) h = Return false ->
     login settings verify uuid4_hex utcnow body c = (Raise InvalidCredentials, c)) /\
  (forall d h, first_match (by_username (LoginIn.username body)) c = Some d ->
     hashed_password d = Some h -> h <> "" ->
     verify_password verify (LoginIn.password body) h = Return true ->
     disabled d = true ->
     login settings verify uuid4_hex utcnow body c = (Raise UserDisabled, c)) /\
  (forall d h, first_match (by_username (LoginIn.username body)) c = Some d ->
     hashed_password d = Some h -> h <> "" ->
     verify_password verify (LoginIn.password body) h = Return true ->
     disabled d = false ->
     ~ expiry_in_range settings utcnow ->
     login settings verify uuid4_hex utcnow body c = (Raise OverflowError, c)) /\
  ((exists out c', login settings verify uuid4_hex utcnow body c = (Return out, c')) <->
   (exists d h, first_match (by_username (LoginIn.username body)) c = Some d /\
      hashed_password d = Some h /\ h <> "" /\
      verify_password verify (LoginIn.password body) h = Return true /\
      disabled d = false) /\
   expiry_in_range settings utcnow).
Proof.
  split; [|split; [|split; [|split; [|split]]]].
  - rewrite login_cases. now intros ->.
  - rewrite login_cases. intros d -> H.
    destruct (hashed_password d) as [h|]; [|reflexivity].
    simpl in H. now rewrite H.
  - rewrite login_cases. intros d h -> -> Hh ->.
    apply truthy_true in Hh. now rewrite Hh.
  - rewrite login_cases. intros d h -> -> Hh -> ->.
    apply truthy_true in Hh. now rewrite Hh.
  - rewrite login_cases. intros d h -> -> Hh -> -> Hr.
    apply truthy_true in Hh. rewrite Hh.
    now rewrite (session_expiry_out_of_range settings utcnow Hr).
  - split.
    + intros (out & c' & H).
      apply login_success in H as (d & h & H1 & H2 & H3 & H4 & H5 & H6 & _).
      split; [exists d, h; auto|exact H6].
    + intros [(d & h & Hf & Hp & Hh & Hv & Hd) Hr].
      rewrite login_cases, Hf, Hp, Hv, Hd.
      apply truthy_true in Hh. rewrite Hh.
      rewrite (proj2 (session_expiry_return settings utcnow _) (conj Hr eq_refl)).
      eexists. eexists. reflexivity.
Qed.

Lemma C3_login_witness :
  expiry_in_range default_settings 5000%Z /\
  (exists out c',
     login default_settings example_verify "t2" 5000%Z alice_login [bob_idle; alice_signed_out]
       = (Return out, c')) /\
  login default_settings example_verify "t2" 5000%Z
    {| LoginIn.username := "alice"; LoginIn.password := "wrong" |}
    [bob_idle; alice_signed_out]
    = (Raise InvalidCredentials, [bob_idle; alice_signed_out]) /\
  login default_settings example_verify "t2" 5000%Z
    {| LoginIn.username := "nobody"; LoginIn.password := "wrong" |}
    [bob_idle; alice_signed_out]
    = (Raise InvalidCredentials, [bob_idle; alice_signed_out]).
Proof.
  assert (R : expiry_in_range default_settings 5000%Z).
  { unfold expiry_in_range. simpl. lia. }
  split; [exact R|]. split; [|split].
  - apply (proj2 (proj2 (proj2 (proj2 (proj2 (proj2
      (C3_login default_settings example_verify "t2" 5000%Z alice_login
         [bob_idle; alice_signed_out]))))))).
    split; [|exact R].
    exists alice_signed_out, (example_hash "" "pw123").
    repeat split; try reflexivity. discriminate.
  - apply (proj1 (proj2 (proj2
      (C3_login default_settings example_verify "t2" 5000%Z
         {| LoginIn.username := "alice"; LoginIn.password := "wrong" |}
         [bob_idle; alice_signed_out])))
      alice_signed_out (example_hash "" "pw123")); try reflexivity.
    discriminate.
  - apply (proj1
      (C3_login default_settings example_verify "t2" 5000%Z
         {| LoginIn.username := "nobody"; LoginIn.password := "wrong" |}
         [bob_idle; alice_signed_out])).
    reflexivity.
Defined.

(** C3 as the specification words it fails: the user exists, the
    password verifies and the user is not disabled, yet with a
    time-to-live of three million days login raises OverflowError
    instead of succeeding. *)
Lemma C3_counterexample :
  first_match (by_username (LoginIn.username alice_login)) [bob_idle; alice_signed_out]
    = Some alice_signed_out /\
  hashed_password alice_signed_out = Some (example_hash "" "pw123") /\
  verify_password example_verify (LoginIn.password alice_login)
    (example_hash "" "pw123") = Return true /\
  disabled alice_signed_out = false /\
  login long_ttl_settings example_verify "t2" nov_2026 alice_login
    [bob_idle; alice_signed_out]
    = (Raise OverflowError, [bob_idle; alice_signed_out]) /\
  ~ (exists out c',
       login long_ttl_settings example_verify "t2" nov_2026 alice_login
         [bob_idle; alice_signed_out] = (Return out, c')).
Proof.
  repeat split; try reflexivity.
  intros (out & c' & H). vm_compute in H. discriminate.
Qed.

(** C7, as the code has it. The default time-to-live is 30 days. On a
    store with unique ids, every successful login at time [utcnow]
    returns the token it drew and the expiry [utcnow] plus the configured
    number of days; the record of the user afterwards is logged in, holds
    exactly the returned token, and holds the returned expiry cut down to
    whole milliseconds, which is the returned expiry itself when [utcnow]
    is a whole millisecond. *)
Theorem C7_login_expiry :
  SESSION_TOKEN_TTL_DAYS default_settings = 30%Z /\
  forall (settings : Settings) (verify : string -> string -> outcome bool)
         (uuid4_hex : string) (utcnow : datetime) (body : LoginIn.t)
         (c c' : collection) (out : TokenOut.t),
    unique_ids c ->
    login settings verify uuid4_hex utcnow body c = (Return out, c') ->
    TokenOut.session_token out = uuid4_hex /\
    TokenOut.expires_at out =
      Some (utcnow + SESSION_TOKEN_TTL_DAYS settings * 86400000000)%Z /\
    exists d d',
      first_match (by_username (LoginIn.username body)) c = Some d /\
      first_match (by_username (LoginIn.username body)) c' = Some d' /\
      _id d' = _id d /\
      logged_in d' = true /\
      session_token d' = Some (TokenOut.session_token out) /\
      session_expires_at d' =
        Some ((utcnow + SESSION_TOKEN_TTL_DAYS settings * 86400000000) / 1000 * 1000)%Z /\
      ((utcnow mod 1000 = 0)%Z -> session_expires_at d' = TokenOut.expires_at out).
Proof.
  split; [reflexivity|].
  intros settings verify uuid4_hex utcnow body c c' out Hnd H.
  apply login_success in H as (d & h & Hf & _ & _ & _ & _ & _ & -> & ->). simpl.
  split; [reflexivity|]. split; [reflexivity|].
  exists d. eexists. split; [exact Hf|].
  rewrite update_first_by_id by assumption.
  rewrite first_match_map.
  - rewrite Hf. simpl. rewrite (proj2 (by_id_true (_id d) d) eq_refl).
    split; [reflexivity|]. simpl. repeat split.
    intros Hm. unfold bson_datetime. f_equal.
    assert (E : ((utcnow + SESSION_TOKEN_TTL_DAYS settings * 86400000000) mod 1000 = 0)%Z).
    { replace (SESSION_TOKEN_TTL_DAYS settings * 86400000000)%Z
        with (SESSION_TOKEN_TTL_DAYS settings * 86400000 * 1000)%Z by lia.
      now rewrite Z.mod_add by lia. }
    pose proof (Z.div_mod (utcnow + SESSION_TOKEN_TTL_DAYS settings * 86400000000) 1000).
    lia.
  - intros x. destruct (by_id (_id d) x); reflexivity.
Qed.

Lemma C7_login_expiry_witness :
  unique_ids [bob_idle; alice_signed_out] /\
  login default_settings example_verify "t2" 5000%Z alice_login
    [bob_idle; alice_signed_out]
  = (Return {| TokenOut.session_token := "t2";
               TokenOut.expires_at := Some 2592000005000%Z |},
     [bob_idle; set_login_state "t2" 2592000005000%Z alice_signed_out]) /\
  exists d d',
    first_match (by_username "alice") [bob_idle; alice_signed_out] = Some d /\
    first_match (by_username "alice")
      [bob_idle; set_login_state "t2" 2592000005000%Z alice_signed_out] = Some d' /\
    _id d' = _id d /\
    logged_in d' = true /\
    session_token d' = Some "t2" /\
    session_expires_at d' = Some 2592000005000%Z.
Proof.
  assert (U : unique_ids [bob_idle; alice_signed_out]).
  { concrete_unique_ids. }
  assert (L : login default_settings example_verify "t2" 5000%Z alice_login
                [bob_idle; alice_signed_out]
              = (Return {| TokenOut.session_token := "t2";
                           TokenOut.expires_at := Some 2592000005000%Z |},
                 [bob_idle; set_login_state "t2" 2592000005000%Z alice_signed_out]))
    by (vm_compute; reflexivity).
  split; [exact U|]. split; [exact L|].
  destruct (proj2 (proj2 (proj2 C7_login_expiry default_settings example_verify "t2"
                            5000%Z alice_login _ _ _ U L)))
    as (d & d' & A & B & C & D & E & F & _).
  exists d, d'. repeat split; assumption.
Defined.

(** C7 as the specification words it fails: at a clock value that is not
    a whole millisecond the stored expiry differs from the returned
    one. *)
Lemma C7_counterexample :
  login default_settings example_verify "t2" 5001%Z alice_login
    [bob_idle; alice_signed_out]
  = (Return {| TokenOut.session_token := "t2";
               TokenOut.expires_at := Some 2592000005001%Z |},
     [bob_idle; set_login_state "t2" 2592000005001%Z alice_signed_out]) /\
  session_expires_at (set_login_state "t2" 2592000005001%Z alice_signed_out)
    = Some 2592000005000%Z /\
  session_expires_at (set_login_state "t2" 2592000005001%Z alice_signed_out)
    <> Some 2592000005001%Z.
Proof.
  split; [vm_compute; reflexivity|]. split; [reflexivity|].
  vm_compute. discriminate.
Qed.

(** ** Verification against a stored hash that is not a hash *)




(** * Further properties of the handlers *)

(** ** partition *)

(** [partition] loses nothing: the three parts concatenate to the input,
    the head is free of the separator, and the middle part is the
    separator exactly when the separator occurs (otherwise middle and
    tail are empty and the head is the whole input). *)
Theorem partition_lossless (sep : ascii) (s : string) :
  exists head found tail,
    partition sep s = (head, found, tail) /\
    head ++ found ++ tail = s /\
    occurs sep head = false /\
    (if occurs sep s then found = String sep EmptyString
     else found = "" /\ tail = "" /\ head = s).
Proof.
  induction s as [|x r (h & f & t & Hp & Hcat & Hocc & Hcase)].
  - exists "", "", "". simpl. repeat split.
  - simpl. destruct (Ascii.eqb x sep) eqn:Hx.
    + exists "", (String sep ""), r. apply Ascii.eqb_eq in Hx. subst x.
      simpl. repeat split.
    + rewrite Hp. exists (String x h), f, t. simpl. rewrite Hx, Hcat, Hocc.
      split; [reflexivity|]. split; [reflexivity|]. split; [reflexivity|].
      destruct (occurs sep r); [assumption|].
      destruct Hcase as (-> & -> & ->). repeat split.
Qed.

(** ** Lookup by token *)

(** [get_user_doc_by_token] never raises and never writes; a document it
    returns is in the collection and holds the non-empty token asked for;
    it returns nothing exactly when the token is empty or no document
    holds it. In particular an empty token finds nothing even if a
    document stores the empty string as its token. *)
Theorem get_user_doc_by_token_sound (t : string) (c : collection) :
  (exists o, get_user_doc_by_token t c = (Return o, c)) /\
  (forall d, get_user_doc_by_token t c = (Return (Some d), c) ->
     t <> "" /\ In d c /\ session_token d = Some t) /\
  (get_user_doc_by_token t c = (Return None, c) <->
     t = "" \/ forall d, In d c -> session_token d <> Some t).
Proof.
  unfold get_user_doc_by_token, find_one, ret.
  destruct (truthy t) eqn:Ht; simpl.
  - apply truthy_true in Ht. split; [eauto|]. split.
    + intros d H. injection H as H.
      apply first_match_some in H as [Hin Hq]. apply by_token_true in Hq. auto.
    + split.
      * intros H. injection H as H. right. intros d Hd Hs.
        rewrite first_match_none in H. specialize (H d Hd).
        apply by_token_true in Hs. congruence.
      * intros [H|H]; [contradiction|].
        assert (E : first_match (by_token t) c = None).
        { apply first_match_none. intros d Hd.
          destruct (by_token t d) eqn:Hq; [|reflexivity].
          apply by_token_true in Hq. now destruct (H d Hd). }
        now rewrite E.
  - assert (E : t = "").
    { destruct (string_dec t "") as [E|E]; [exact E|].
      apply truthy_true in E. congruence. }
    split; [eauto|]. split; [discriminate|]. split; auto.
Qed.

Lemma get_user_doc_by_token_sound_witness :
  get_user_doc_by_token "t1" example_store = (Return (Some alice_active), example_store) /\
  "t1" <> "" /\ In alice_active example_store /\
  session_token alice_active = Some "t1".
Proof.
  split; [reflexivity|].
  exact (proj1 (proj2 (get_user_doc_by_token_sound "t1" example_store))
           alice_active eq_refl).
Defined.

(** ** The two header errors *)

(** Both handlers raise MissingAuthHeader exactly for an absent or empty
    header, and their malformed-header error exactly for a non-empty
    header that does not have the accepted shape (no space, empty scheme,
    another scheme, or nothing after the first space); the store is left as
    it was. *)
Theorem header_errors (authorization : option string) (c : collection) :
  ((authorization = None \/ authorization = Some "") <->
     require_session authorization c = (Raise MissingAuthHeader, c)) /\
  ((authorization = None \/ authorization = Some "") <->
     signout authorization c = (Raise MissingAuthHeader, c)) /\
  ((exists a, authorization = Some a /\ a <> "" /\
              forall token, ~ credential_shape authorization token) <->
     require_session authorization c = (Raise MalformedAuthHeader, c)) /\
  ((exists a, authorization = Some a /\ a <> "" /\
              forall token, ~ credential_shape authorization token) <->
     signout authorization c = (Raise MalformedSignoutHeader, c)).
Proof.
  destruct (credential_shape_dec authorization) as [[t S]|N].
  - assert (Hne : exists a, authorization = Some a /\ a <> "").
    { destruct authorization as [a|]; [|destruct S as (? & ? & _); discriminate].
      exists a. split; [reflexivity|].
      apply truthy_true. now destruct (header_check_shape a t S). }
    destruct Hne as (a & -> & Ha).
    rewrite (require_session_shape _ _ c S), (signout_shape _ _ c S).
    assert (R : forall e, e = MissingAuthHeader \/ e = MalformedAuthHeader ->
                match first_match (by_token t) c with
                | Some d =>
                    if negb (logged_in d) then (Raise SessionInactive, c)
                    else if disabled d then (Raise UserDisabled, c)
                    else (Return (public_view d), c)
                | None => (Raise InvalidSession, c)
                end <> (Raise e, c)).
    { intros e He.
      destruct (first_match (by_token t) c) as [d|];
        [destruct (logged_in d); [destruct (disabled d)|]|];
        destruct He as [-> | ->]; discriminate. }
    assert (G : forall e, e = MissingAuthHeader \/ e = MalformedSignoutHeader ->
                match first_match (by_token t) c with
                | Some d =>
                    (Return "Signed out",
                     update_first (by_id (_id d)) clear_login_state c)
                | None => (Raise InvalidSession, c)
                end <> (Raise e, c)).
    { intros e He. destruct (first_match (by_token t) c) as [d|];
        destruct He as [-> | ->]; discriminate. }
    repeat split; intros H; try (exfalso; revert H; now (apply R + apply G; auto)).
    + destruct H as [H|H]; [discriminate|injection H as ->; now destruct Ha].
    + destruct H as [H|H]; [discriminate|injection H as ->; now destruct Ha].
    + destruct H as (? & _ & _ & H). now destruct (H t).
    + destruct H as (? & _ & _ & H). now destruct (H t).
  - destruct authorization as [a|].
    + unfold require_session, signout. destruct (truthy a) eqn:Ha.
      * destruct (partition " " a) as [[scheme found] token] eqn:Hp.
        rewrite (header_check_reject a N scheme found token Hp).
        apply truthy_true in Ha.
        repeat split; intros H; try discriminate; try reflexivity;
          try (destruct H as [H|H]; [discriminate|injection H as ->; now destruct Ha]).
        all: exists a; auto.
      * assert (E : a = "").
        { destruct (string_dec a "") as [E|E]; [exact E|].
          apply truthy_true in E. congruence. }
        subst a.
        repeat split; intros H; try discriminate; try reflexivity; auto.
        all: destruct H as (a & Ha1 & Ha2 & _); injection Ha1 as <-; now destruct Ha2.
    + simpl. repeat split; intros H; try discriminate; try reflexivity; auto.
      all: destruct H as (a & Ha1 & _); discriminate.
Qed.

Lemma header_errors_witness :
  require_session (Some "Bearer t1") example_store
    = (Raise MalformedAuthHeader, example_store) /\
  signout (Some "Session ") example_store
    = (Raise MalformedSignoutHeader, example_store) /\
  signout (Some "") example_store = (Raise MissingAuthHeader, example_store).
Proof.
  assert (N1 : forall token, ~ credential_shape (Some "Bearer t1") token).
  { intros t H. destruct (header_check_shape _ _ H) as (_ & s & Hp & Hl & _).
    vm_compute in Hp. injection Hp as <- _. discriminate. }
  assert (N2 : forall token, ~ credential_shape (Some "Session ") token).
  { intros t H. destruct (header_check_shape _ _ H) as (_ & s & Hp & _ & Ht).
    vm_compute in Hp. injection Hp as _ <-. discriminate. }
  split; [|split].
  - apply (proj1 (proj1 (proj2 (proj2 (header_errors (Some "Bearer t1") example_store))))).
    exists "Bearer t1". split; [reflexivity|]. split; [discriminate|exact N1].
  - apply (proj1 (proj2 (proj2 (proj2 (header_errors (Some "Session ") example_store))))).
    exists "Session ". split; [reflexivity|]. split; [discriminate|exact N2].
  - apply (proj1 (proj1 (proj2 (header_errors (Some "") example_store)))). now right.
Defined.

(** ** Registration *)

Lemma first_match_app (q : UserDoc -> bool) (c : collection) (d : UserDoc) :
  first_match q (c ++ [d])%list =
    match first_match q c with
    | Some x => Some x
    | None => if q d then Some d else None
    end.
Proof.
  induction c as [|x c IH]; simpl; [reflexivity|].
  destruct (q x); [reflexivity|assumption].
Qed.

Lemma existsb_by_id_false (oid : ObjectId) (c : collection) :
  existsb (by_id oid) c = false <-> (forall d, In d c -> _id d <> oid).
Proof.
  split.
  - intros H d Hd E. apply by_id_true in E.
    assert (X : existsb (by_id oid) c = true) by (apply existsb_exists; eauto).
    congruence.
  - intros H. destruct (existsb (by_id oid) c) eqn:E; [|reflexivity].
    apply existsb_exists in E as (d & Hd & Hq). apply by_id_true in Hq.
    now destruct (H d Hd).
Qed.

Lemma first_match_username_none (n : string) (c : collection) :
  first_match (by_username n) c = None <-> (forall d, In d c -> username d <> n).
Proof.
  rewrite first_match_none. split; intros H d Hd.
  - intros E. apply by_username_true in E. specialize (H d Hd). congruence.
  - destruct (by_username n d) eqn:E; [|reflexivity].
    apply by_username_true in E. now destruct (H d Hd).
Qed.

Lemma password_size_ok (secret : string) :
  (MAX_PASSWORD_SIZE <? String.length secret)%nat = false <->
  (String.length secret <= 4096)%nat.
Proof. unfold MAX_PASSWORD_SIZE. apply Nat.ltb_ge. Qed.

Lemma password_size_over (secret : string) :
  (MAX_PASSWORD_SIZE <? String.length secret)%nat = true <->
  (4096 < String.length secret)%nat.
Proof. unfold MAX_PASSWORD_SIZE. apply Nat.ltb_lt. Qed.

(** Registration succeeds exactly when neither the username nor the drawn
    id is in the store and the password has at most 4096 characters. It
    then returns the public view with logged_in false and appends one
    document (hash of the password, not disabled, logged out, no token,
    creation time at millisecond precision); afterwards the username
    resolves to that document, other usernames resolve as before, and
    every token resolves as before. *)
Theorem register_fresh (hash : string -> string -> string) (oid : ObjectId)
    (utcnow : datetime) (salt : string) (user : RegisterIn.t) (c : collection) :
  ((exists out c', register hash oid utcnow salt user c = (Return out, c')) <->
     (forall d, In d c -> username d <> RegisterIn.username user) /\
     (forall d, In d c -> _id d <> oid) /\
     (String.length (RegisterIn.password user) <= 4096)%nat) /\
  ((forall d, In d c -> username d <> RegisterIn.username user) ->
   (forall d, In d c -> _id d <> oid) ->
   (String.length (RegisterIn.password user) <= 4096)%nat ->
   let doc := registered_doc hash oid utcnow salt user in
   register hash oid utcnow salt user c
     = (Return (registered_view oid user), (c ++ [doc])%list) /\
   created_at doc = (utcnow / 1000 * 1000)%Z /\
   get_user_doc_by_username (RegisterIn.username user) (c ++ [doc])%list
     = (Return (Some doc), (c ++ [doc])%list) /\
   (forall n, n <> RegisterIn.username user ->
      first_match (by_username n) (c ++ [doc])%list = first_match (by_username n) c) /\
   (forall t, first_match (by_token t) (c ++ [doc])%list = first_match (by_token t) c)).
Proof.
  rewrite register_cases. split.
  - split.
    + intros (out & c' & H).
      destruct (first_match (by_username (RegisterIn.username user)) c) eqn:Hu;
        [discriminate|].
      destruct (MAX_PASSWORD_SIZE <? String.length (RegisterIn.password user))%nat
        eqn:Hs; [discriminate|].
      destruct (existsb (by_id oid) c) eqn:Hi; [discriminate|].
      split; [now apply first_match_username_none|].
      split; [now apply existsb_by_id_false|now apply password_size_ok].
    + intros (Hu & Hi & Hs). apply first_match_username_none in Hu.
      apply existsb_by_id_false in Hi. apply password_size_ok in Hs.
      rewrite Hu, Hs, Hi. eauto.
  - intros Hu Hi Hs doc. apply first_match_username_none in Hu.
    apply existsb_by_id_false in Hi. apply password_size_ok in Hs.
    rewrite Hu, Hs, Hi.
    split; [reflexivity|]. split; [reflexivity|]. split; [|split].
    + unfold get_user_doc_by_username, find_one.
      rewrite first_match_app, Hu.
      assert (E : by_username (RegisterIn.username user) doc = true)
        by now apply by_username_true.
      now rewrite E.
    + intros n Hn. rewrite first_match_app.
      destruct (first_match (by_username n) c); [reflexivity|].
      destruct (by_username n doc) eqn:E; [|reflexivity].
      apply by_username_true in E. simpl in E. congruence.
    + intros t. rewrite first_match_app.
      destruct (first_match (by_token t) c); reflexivity.
Qed.

Lemma register_fresh_witness :
  (forall d, In d [bob_idle] -> username d <> RegisterIn.username alice_in) /\
  (forall d, In d [bob_idle] -> _id d <> "id1") /\
  (String.length (RegisterIn.password alice_in) <= 4096)%nat /\
  register example_hash "id1" 1234%Z "salt" alice_in [bob_idle]
    = (Return (registered_view "id1" alice_in),
       [bob_idle; registered_doc example_hash "id1" 1234%Z "salt" alice_in]) /\
  created_at (registered_doc example_hash "id1" 1234%Z "salt" alice_in) = 1000%Z /\
  get_user_doc_by_username "alice"
    [bob_idle; registered_doc example_hash "id1" 1234%Z "salt" alice_in]
    = (Return (Some (registered_doc example_hash "id1" 1234%Z "salt" alice_in)),
       [bob_idle; registered_doc example_hash "id1" 1234%Z "salt" alice_in]).
Proof.
  assert (U : forall d, In d [bob_idle] -> username d <> RegisterIn.username alice_in).
  { intros d [<-|[]]. discriminate. }
  assert (I : forall d, In d [bob_idle] -> _id d <> "id1").
  { intros d [<-|[]]. discriminate. }
  assert (S : (String.length (RegisterIn.password alice_in) <= 4096)%nat).
  { apply password_size_ok. reflexivity. }
  split; [exact U|]. split; [exact I|]. split; [exact S|].
  destruct (proj2 (register_fresh example_hash "id1" 1234%Z "salt" alice_in [bob_idle])
              U I S) as (A & B & C & _).
  split; [exact A|]. split; [exact B|exact C].
Defined.

(** [create_user_doc] on its own: a password of more than 4096 characters
    makes the hashing raise PasswordSizeError before anything is stored;
    otherwise, with the username or the id already in the store the insert
    raises DuplicateKeyError and nothing is stored, and else the document
    is appended with the password hash and the creation time at
    millisecond precision, while the document handed back has no hash and
    keeps the creation time as read from the clock. *)
Theorem create_user_doc_outcome (hash : string -> string -> string) (oid : ObjectId)
    (utcnow : datetime) (salt : string) (payload : RegisterIn.t) (c : collection) :
  ((4096 < String.length (RegisterIn.password payload))%nat ->
   create_user_doc hash oid utcnow salt payload c = (Raise PasswordSizeError, c)) /\
  ((String.length (RegisterIn.password payload) <= 4096)%nat ->
   (exists d, In d c /\
      (_id d = oid \/ username d = RegisterIn.username payload)) ->
   create_user_doc hash oid utcnow salt payload c = (Raise DuplicateKeyError, c)) /\
  ((String.length (RegisterIn.password payload) <= 4096)%nat ->
   (forall d, In d c ->
      _id d <> oid /\ username d <> RegisterIn.username payload) ->
   exists doc,
     create_user_doc hash oid utcnow salt payload c
       = (Return doc, (c ++ [registered_doc hash oid utcnow salt payload])%list) /\
     hashed_password doc = None /\
     hashed_password (registered_doc hash oid utcnow salt payload)
       = Some (hash salt (RegisterIn.password payload)) /\
     created_at doc = utcnow /\
     created_at (registered_doc hash oid utcnow salt payload)
       = (utcnow / 1000 * 1000)%Z /\
     _id doc = oid /\
     username doc = RegisterIn.username payload /\
     full_name doc = RegisterIn.full_name payload /\
     disabled doc = false /\
     logged_in doc = false /\ session_token doc = None /\
     session_expires_at doc = None).
Proof.
  unfold create_user_doc, bind, lift, insert_one, hash_password, pwd_context_hash.
  split; [|split].
  - intros Hs. apply password_size_over in Hs. now rewrite Hs.
  - intros Hs (d & Hd & H). apply password_size_ok in Hs. rewrite Hs.
    cbn [_id username].
    assert (E : existsb (fun e => by_id oid e || by_username (RegisterIn.username payload) e) c
                = true).
    { apply existsb_exists. exists d. split; [exact Hd|].
      apply orb_true_iff. destruct H as [H|H];
        [left; now apply by_id_true|right; now apply by_username_true]. }
    now rewrite E.
  - intros Hs H. apply password_size_ok in Hs. rewrite Hs.
    cbn [_id username].
    assert (E : existsb (fun e => by_id oid e || by_username (RegisterIn.username payload) e) c
                = false).
    { destruct (existsb _ c) eqn:E; [|reflexivity].
      apply existsb_exists in E as (d & Hd & Hq). destruct (H d Hd) as [H1 H2].
      apply orb_true_iff in Hq as [Hq|Hq];
        [apply by_id_true in Hq|apply by_username_true in Hq]; contradiction. }
    rewrite E. eexists. split; [reflexivity|]. simpl. repeat split.
Qed.

Lemma create_user_doc_outcome_witness :
  (String.length (RegisterIn.password alice_in) <= 4096)%nat /\
  (exists d, In d example_store /\
     (_id d = "id9" \/ username d = RegisterIn.username alice_in)) /\
  create_user_doc example_hash "id9" 1000%Z "salt" alice_in example_store
    = (Raise DuplicateKeyError, example_store).
Proof.
  assert (S : (String.length (RegisterIn.password alice_in) <= 4096)%nat).
  { apply password_size_ok. reflexivity. }
  assert (H : exists d, In d example_store /\
     (_id d = "id9" \/ username d = RegisterIn.username alice_in)).
  { exists alice_active. split; [now left|now right]. }
  split; [exact S|]. split; [exact H|].
  exact (proj1 (proj2 (create_user_doc_outcome example_hash "id9" 1000%Z "salt" alice_in
                         example_store)) S H).
Defined.

(** ** What the handlers do to the store *)

Lemma update_first_field {B : Type} (g : UserDoc -> B) (q : UserDoc -> bool)
    (u : UserDoc -> UserDoc) (c : collection) :
  (forall d, g (u d) = g d) -> map g (update_first q u c) = map g c.
Proof.
  intros Hu. induction c as [|x c IH]; simpl; [reflexivity|].
  destruct (q x); simpl; [now rewrite Hu|now rewrite IH].
Qed.

Lemma store_ok_update (q : UserDoc -> bool) (u : UserDoc -> UserDoc) (c : collection) :
  (forall d, _id (u d) = _id d) -> (forall d, username (u d) = username d) ->
  store_ok c -> store_ok (update_first q u c).
Proof.
  intros Hi Hn [H1 H2]. unfold store_ok, unique_ids, unique_usernames.
  now rewrite !update_first_field.
Qed.

Lemma login_store (settings : Settings) (verify : string -> string -> outcome bool)
    (uuid4_hex : string) (utcnow : datetime) (body : LoginIn.t) (c : collection) :
  (exists e, login settings verify uuid4_hex utcnow body c = (Raise e, c)) \/
  (exists out d expires,
     first_match (by_username (LoginIn.username body)) c = Some d /\
     login settings verify uuid4_hex utcnow body c
       = (Return out,
          update_first (by_id (_id d)) (set_login_state uuid4_hex expires) c)).
Proof.
  rewrite login_cases.
  destruct (first_match (by_username (LoginIn.username body)) c) as [d|]; [|eauto].
  destruct (hashed_password d) as [h|]; [|eauto].
  destruct (truthy h); [|eauto].
  destruct (verify_password verify (LoginIn.password body) h) as [[|]|e]; eauto.
  destruct (disabled d); [eauto|].
  destruct (session_expiry settings utcnow) as [expires|e]; [|eauto].
  right. eexists. exists d. eexists. split; reflexivity.
Qed.

Lemma signout_store (authorization : option string) (c : collection) :
  (exists e, signout authorization c = (Raise e, c)) \/
  (exists t d,
     credential_shape authorization t /\ first_match (by_token t) c = Some d /\
     signout authorization c
       = (Return "Signed out", update_first (by_id (_id d)) clear_login_state c)).
Proof.
  destruct (credential_shape_dec authorization) as [[t S]|N].
  - rewrite (signout_shape _ _ c S).
    destruct (first_match (by_token t) c) as [d|] eqn:Hf; [|eauto].
    right. exists t, d. auto.
  - left. destruct (signout_reject authorization c N) as [E|E]; rewrite E; eauto.
Qed.

Lemma require_session_store (authorization : option string) (c : collection) :
  snd (require_session authorization c) = c.
Proof.
  destruct (credential_shape_dec authorization) as [[t S]|N].
  - rewrite (require_session_shape _ _ c S).
    destruct (first_match (by_token t) c) as [d|]; [|reflexivity].
    destruct (logged_in d); [|reflexivity].
    destruct (disabled d); reflexivity.
  - destruct (require_session_reject authorization c N) as [E|E]; now rewrite E.
Qed.

(** The two uniqueness guarantees of the store, on [_id] and on
    [username], are kept by register, login and signout, whatever their
    outcome. *)
Theorem store_ok_preserved (c : collection) :
  store_ok c ->
  (forall hash oid utcnow salt user,
     store_ok (snd (register hash oid utcnow salt user c))) /\
  (forall settings verify uuid4_hex utcnow body,
     store_ok (snd (login settings verify uuid4_hex utcnow body c))) /\
  (forall authorization, store_ok (snd (signout authorization c))).
Proof.
  intros Hc. split; [|split].
  - intros hash oid utcnow salt user. rewrite register_cases.
    destruct (first_match (by_username (RegisterIn.username user)) c) eqn:Hu;
      [exact Hc|].
    destruct (MAX_PASSWORD_SIZE <? String.length (RegisterIn.password user))%nat;
      [exact Hc|].
    destruct (existsb (by_id oid) c) eqn:Hi; [exact Hc|].
    destruct Hc as [H1 H2]. simpl.
    unfold store_ok, unique_ids, unique_usernames. rewrite !map_app. simpl.
    split; apply NoDup_app; auto; try (constructor; [intros []|constructor]).
    + intros a Ha [<-|[]]. apply in_map_iff in Ha as (d & Hd & Hin).
      revert Hd. now apply existsb_by_id_false with (c := c).
    + intros a Ha [<-|[]]. apply in_map_iff in Ha as (d & Hd & Hin).
      revert Hd. now apply first_match_username_none with (c := c).
  - intros settings verify uuid4_hex utcnow body.
    destruct (login_store settings verify uuid4_hex utcnow body c)
      as [[e E]|(out & d & expires & _ & E)]; rewrite E; simpl; [exact Hc|].
    now apply store_ok_update.
  - intros authorization.
    destruct (signout_store authorization c) as [[e E]|(t & d & _ & _ & E)];
      rewrite E; simpl; [exact Hc|].
    now apply store_ok_update.
Qed.

Lemma store_ok_preserved_witness :
  store_ok example_store /\
  store_ok (snd (register example_hash "id9" 7000%Z "salt"
                   {| RegisterIn.username := "erin"; RegisterIn.password := "pw";
                      RegisterIn.full_name := None |} example_store)) /\
  store_ok (snd (login default_settings example_verify "t2" 5000%Z alice_login
                   example_store)) /\
  store_ok (snd (signout (Some "Session t1") example_store)).
Proof.
  assert (H : store_ok example_store).
  { split; [concrete_unique_ids|].
    unfold unique_usernames. simpl.
    repeat constructor; simpl; intuition discriminate. }
  split; [exact H|].
  destruct (store_ok_preserved example_store H) as (R & L & S).
  split; [apply R|]. split; [apply L|apply S].
Defined.

(** A handler that raises has not written: after any error of register,
    create_user_doc, login or signout the store is as before, and
    require_session and protected_route never write at all. *)
Theorem failure_leaves_store (c : collection) :
  (forall hash oid utcnow salt user e c',
     register hash oid utcnow salt user c = (Raise e, c') -> c' = c) /\
  (forall hash oid utcnow salt payload e c',
     create_user_doc hash oid utcnow salt payload c = (Raise e, c') -> c' = c) /\
  (forall settings verify uuid4_hex utcnow body e c',
     login settings verify uuid4_hex utcnow body c = (Raise e, c') -> c' = c) /\
  (forall authorization e c',
     signout authorization c = (Raise e, c') -> c' = c) /\
  (forall authorization, snd (require_session authorization c) = c) /\
  (forall authorization, snd (protected_route authorization c) = c).
Proof.
  split; [|split; [|split; [|split; [|split]]]].
  - intros hash oid utcnow salt user e c'. rewrite register_cases.
    destruct (first_match (by_username (RegisterIn.username user)) c);
      [congruence|].
    destruct (MAX_PASSWORD_SIZE <? String.length (RegisterIn.password user))%nat;
      [congruence|].
    destruct (existsb (by_id oid) c); [congruence|discriminate].
  - intros hash oid utcnow salt payload e c'.
    unfold create_user_doc, bind, lift, insert_one, hash_password, pwd_context_hash.
    destruct (MAX_PASSWORD_SIZE <? String.length (RegisterIn.password payload))%nat;
      [congruence|].
    cbn [_id username].
    destruct (existsb _ c); [congruence|discriminate].
  - intros settings verify uuid4_hex utcnow body e c' H.
    destruct (login_store settings verify uuid4_hex utcnow body c)
      as [[e0 E]|(out & d & expires & _ & E)]; congruence.
  - intros authorization e c' H.
    destruct (signout_store authorization c) as [[e0 E]|(t & d & _ & _ & E)];
      congruence.
  - intros authorization. apply require_session_store.
  - intros authorization. unfold protected_route, bind.
    pose proof (require_session_store authorization c) as H.
    destruct (require_session authorization c) as [[v|e] c1]; exact H.
Qed.

Lemma failure_leaves_store_witness :
  login default_settings example_verify "t2" 5000%Z
    {| LoginIn.username := "alice"; LoginIn.password := "wrong" |} example_store
  = (Raise InvalidCredentials,
     snd (login default_settings example_verify "t2" 5000%Z
            {| LoginIn.username := "alice"; LoginIn.password := "wrong" |}
            example_store)) /\
  snd (login default_settings example_verify "t2" 5000%Z
         {| LoginIn.username := "alice"; LoginIn.password := "wrong" |}
         example_store) = example_store.
Proof.
  split; [reflexivity|].
  exact (proj1 (proj2 (proj2 (failure_leaves_store example_store)))
           default_settings example_verify "t2" 5000%Z
           {| LoginIn.username := "alice"; LoginIn.password := "wrong" |}
           InvalidCredentials _ eq_refl).
Defined.

(** A successful login rewrites nothing but the session fields: every
    document keeps its [_id], [username], [hashed_password], [full_name],
    [disabled] and [created_at], and documents whose id is not that of
    the user logging in are unchanged. *)
Theorem login_frame (settings : Settings) (verify : string -> string -> outcome bool)
    (uuid4_hex : string) (utcnow : datetime) (body : LoginIn.t)
    (c c' : collection) (out : TokenOut.t) :
  login settings verify uuid4_hex utcnow body c = (Return out, c') ->
  exists d,
    first_match (by_username (LoginIn.username body)) c = Some d /\
    Forall2 same_identity c c' /\
    Forall2 (fun x x' => _id x <> _id d -> x' = x) c c'.
Proof.
  intros H. apply login_success in H as (d & h & Hf & _ & _ & _ & _ & _ & _ & ->).
  exists d. split; [exact Hf|]. split.
  - apply update_first_Forall2; unfold same_identity; simpl; tauto.
  - apply update_first_Forall2; [reflexivity|].
    intros x Hx Hne. apply by_id_true in Hx. contradiction.
Qed.

Lemma login_frame_witness :
  exists c',
    login default_settings example_verify "t2" 5000%Z alice_login example_store
      = (Return {| TokenOut.session_token := "t2";
                   TokenOut.expires_at := Some 2592000005000%Z |}, c') /\
    Forall2 same_identity example_store c' /\
    Forall2 (fun x x' => _id x <> "id1" -> x' = x) example_store c'.
Proof.
  eexists. split; [vm_compute; reflexivity|].
  destruct (login_frame default_settings example_verify "t2" 5000%Z alice_login
              example_store _ _ eq_refl) as (d & Hd & A & B).
  injection Hd as <-. split; [exact A|exact B].
Defined.

(** ** The protected route *)

(** The protected route never writes; it answers exactly when the header
    has the accepted shape and the first document holding its token is
    logged in and not disabled, and the greeting then names that
    document's username; every error of [require_session] comes out
    unchanged. *)
Theorem protected_route_greets (authorization : option string) (c : collection) :
  (forall msg c', protected_route authorization c = (Return msg, c') ->
     exists t d,
       credential_shape authorization t /\
       first_match (by_token t) c = Some d /\
       logged_in d = true /\ disabled d = false /\
       msg = greeting (username d) /\ c' = c) /\
  (forall t d,
     credential_shape authorization t ->
     first_match (by_token t) c = Some d ->
     logged_in d = true -> disabled d = false ->
     protected_route authorization c = (Return (greeting (username d)), c)) /\
  (forall e, require_session authorization c = (Raise e, c) ->
     protected_route authorization c = (Raise e, c)).
Proof.
  unfold protected_route, bind. split; [|split].
  - intros msg c' H.
    destruct (credential_shape_dec authorization) as [[t S]|N].
    + rewrite (require_session_shape _ _ c S) in H.
      destruct (first_match (by_token t) c) as [d|] eqn:Hf; [|discriminate].
      destruct (logged_in d) eqn:Hl; [|discriminate].
      destruct (disabled d) eqn:Hd; [discriminate|].
      simpl in H. unfold ret in H. injection H as <- <-.
      exists t, d. auto 10.
    + destruct (require_session_reject authorization c N) as [E|E];
        rewrite E in H; discriminate.
  - intros t d S Hf Hl Hd.
    now rewrite (require_session_shape _ _ c S), Hf, Hl, Hd.
  - now intros e ->.
Qed.

Lemma protected_route_greets_witness :
  credential_shape (Some "session t1") "t1" /\
  protected_route (Some "session t1") example_store
    = (Return "Hello alice, you are signed in.", example_store).
Proof.
  assert (S : credential_shape (Some "session t1") "t1").
  { exists "session". repeat split; try reflexivity. discriminate. }
  split; [exact S|].
  exact (proj1 (proj2 (protected_route_greets (Some "session t1") example_store))
           "t1" alice_active S eq_refl eq_refl eq_refl).
Defined.

(** ** The life cycle *)

Lemma update_first_app_fresh (q : UserDoc -> bool) (u : UserDoc -> UserDoc)
    (c : collection) (d : UserDoc) :
  (forall x, In x c -> q x = false) -> q d = true ->
  update_first q u (c ++ [d])%list = (c ++ [u d])%list.
Proof.
  intros Hc Hd. induction c as [|x c IH]; simpl.
  - now rewrite Hd.
  - rewrite (Hc x (or_introl eq_refl)). f_equal.
    apply IH. intros y Hy. apply Hc. now right.
Qed.

Lemma first_match_update_stable (q p : UserDoc -> bool) (u : UserDoc -> UserDoc)
    (c : collection) (b : UserDoc) :
  (forall x, q x = false -> q (u x) = false) -> p b = false ->
  first_match q c = Some b ->
  first_match q (update_first p u c) = Some b.
Proof.
  intros Hu Hb. induction c as [|x c IH]; simpl; [discriminate|].
  destruct (q x) eqn:Hq.
  - intros H. injection H as ->. rewrite Hb. simpl. now rewrite Hq.
  - intros H. destruct (p x); simpl.
    + now rewrite (Hu x Hq).
    + rewrite Hq. now apply IH.
Qed.

(** Register, then login, then protected access. On a store that has
    neither the username nor the drawn id, with a password of at most
    4096 characters, a scheme that verifies the password against its own
    hash, an expiry that is a representable datetime, and a drawn token
    that is non-empty and held by no document: registration succeeds,
    login with the same credentials succeeds and returns the drawn token,
    and that token then opens the protected route for the new user. *)
Theorem register_login_access (settings : Settings)
    (hash : string -> string -> string) (verify : string -> string -> outcome bool)
    (oid : ObjectId) (t0 t1 : datetime) (salt uuid4_hex : string)
    (user : RegisterIn.t) (c : collection) :
  (forall d, In d c -> username d <> RegisterIn.username user) ->
  (forall d, In d c -> _id d <> oid) ->
  (forall d, In d c -> session_token d <> Some uuid4_hex) ->
  uuid4_hex <> "" ->
  (String.length (RegisterIn.password user) <= 4096)%nat ->
  verify_password verify (RegisterIn.password user)
    (hash salt (RegisterIn.password user)) = Return true ->
  expiry_in_range settings t1 ->
  exists c1 c2,
    register hash oid t0 salt user c = (Return (registered_view oid user), c1) /\
    login settings verify uuid4_hex t1
      {| LoginIn.username := RegisterIn.username user;
         LoginIn.password := RegisterIn.password user |} c1
      = (Return {| TokenOut.session_token := uuid4_hex;
                   TokenOut.expires_at :=
                     Some (t1 + SESSION_TOKEN_TTL_DAYS settings * 86400000000)%Z |},
         c2) /\
    require_session (Some ("Session " ++ uuid4_hex)) c2
      = (Return {| UserOut.id := oid;
                   UserOut.username := RegisterIn.username user;
                   UserOut.full_name := RegisterIn.full_name user;
                   UserOut.logged_in := true |}, c2) /\
    protected_route (Some ("Session " ++ uuid4_hex)) c2
      = (Return (greeting (RegisterIn.username user)), c2).
Proof.
  intros Hu Hi Ht Hne Hs Hv Hr.
  set (doc := registered_doc hash oid t0 salt user).
  set (expires := (t1 + SESSION_TOKEN_TTL_DAYS settings * 86400000000)%Z).
  exists (c ++ [doc])%list, (c ++ [set_login_state uuid4_hex expires doc])%list.
  assert (Hh : truthy (hash salt (RegisterIn.password user)) = true).
  { apply truthy_true. intros E. rewrite E in Hv. discriminate. }
  assert (Hf : first_match (by_username (RegisterIn.username user)) (c ++ [doc])%list
               = Some doc).
  { rewrite first_match_app.
    rewrite (proj2 (first_match_username_none _ c) Hu).
    assert (E : by_username (RegisterIn.username user) doc = true)
      by now apply by_username_true.
    now rewrite E. }
  assert (Hup : update_first (by_id oid) (set_login_state uuid4_hex expires)
                  (c ++ [doc])%list
                = (c ++ [set_login_state uuid4_hex expires doc])%list).
  { apply update_first_app_fresh.
    - intros x Hx. destruct (by_id oid x) eqn:Hq; [|reflexivity].
      apply by_id_true in Hq. now destruct (Hi x Hx).
    - now apply by_id_true. }
  assert (Hr' : require_session (Some ("Session " ++ uuid4_hex))
                 (c ++ [set_login_state uuid4_hex expires doc])%list
               = (Return (public_view (set_login_state uuid4_hex expires doc)),
                  (c ++ [set_login_state uuid4_hex expires doc])%list)).
  { rewrite (require_session_shape _ _ _ (session_header_shape uuid4_hex Hne)).
    rewrite first_match_app.
    assert (E : first_match (by_token uuid4_hex) c = None).
    { apply first_match_none. intros x Hx.
      destruct (by_token uuid4_hex x) eqn:Hq; [|reflexivity].
      apply by_token_true in Hq. now destruct (Ht x Hx). }
    rewrite E.
    assert (Q : by_token uuid4_hex (set_login_state uuid4_hex expires doc) = true)
      by now apply by_token_true.
    now rewrite Q. }
  split; [|split; [|split]].
  - rewrite register_cases.
    rewrite (proj2 (first_match_username_none _ c) Hu).
    rewrite (proj2 (password_size_ok _) Hs).
    now rewrite (proj2 (existsb_by_id_false oid c) Hi).
  - rewrite login_cases. cbn [LoginIn.username LoginIn.password].
    rewrite Hf. cbn [hashed_password doc registered_doc].
    rewrite Hh, Hv. cbn [disabled doc registered_doc _id].
    rewrite (proj2 (session_expiry_return settings t1 _) (conj Hr eq_refl)).
    fold doc. fold expires. now rewrite Hup.
  - exact Hr'.
  - unfold protected_route, bind. now rewrite Hr'.
Qed.

Lemma register_login_access_witness :
  (forall d, In d [bob_idle] -> username d <> RegisterIn.username alice_in) /\
  (forall d, In d [bob_idle] -> _id d <> "id1") /\
  (forall d, In d [bob_idle] -> session_token d <> Some "t1") /\
  "t1" <> "" /\
  (String.length (RegisterIn.password alice_in) <= 4096)%nat /\
  verify_password example_verify (RegisterIn.password alice_in)
    (example_hash "salt" (RegisterIn.password alice_in)) = Return true /\
  expiry_in_range default_settings nov_2026 /\
  exists c1 c2,
    register example_hash "id1" 1000%Z "salt" alice_in [bob_idle]
      = (Return (registered_view "id1" alice_in), c1) /\
    login default_settings example_verify "t1" nov_2026 alice_login c1
      = (Return {| TokenOut.session_token := "t1";
                   TokenOut.expires_at := Some 63931852800000000%Z |}, c2) /\
    require_session (Some "Session t1") c2
      = (Return {| UserOut.id := "id1"; UserOut.username := "alice";
                   UserOut.full_name := Some "Alice";
                   UserOut.logged_in := true |}, c2) /\
    protected_route (Some "Session t1") c2
      = (Return "Hello alice, you are signed in.", c2).
Proof.
  assert (U : forall d, In d [bob_idle] -> username d <> RegisterIn.username alice_in).
  { intros d [<-|[]]. discriminate. }
  assert (I : forall d, In d [bob_idle] -> _id d <> "id1").
  { intros d [<-|[]]. discriminate. }
  assert (T : forall d, In d [bob_idle] -> session_token d <> Some "t1").
  { intros d [<-|[]]. discriminate. }
  assert (N : "t1" <> "") by discriminate.
  assert (S : (String.length (RegisterIn.password alice_in) <= 4096)%nat).
  { apply password_size_ok. reflexivity. }
  assert (V : verify_password example_verify (RegisterIn.password alice_in)
                (example_hash "salt" (RegisterIn.password alice_in)) = Return true)
    by reflexivity.
  assert (R : expiry_in_range default_settings nov_2026).
  { unfold expiry_in_range, nov_2026. simpl. lia. }
  split; [exact U|]. split; [exact I|]. split; [exact T|].
  split; [exact N|]. split; [exact S|]. split; [exact V|]. split; [exact R|].
  exact (register_login_access default_settings example_hash example_verify
           "id1" 1000%Z nov_2026 "salt" "t1" alice_in [bob_idle] U I T N S V R).
Defined.

(** Signing out twice. When [d] is the one holder of the non-empty token
    [t], signout with [Session t] succeeds once; the same request again
    fails with InvalidSession and changes nothing. *)
Theorem signout_twice (t : string) (c : collection) (d : UserDoc) :
  t <> "" -> unique_ids c -> holders t c = [d] ->
  exists c',
    signout (Some ("Session " ++ t)) c = (Return "Signed out", c') /\
    signout (Some ("Session " ++ t)) c' = (Raise InvalidSession, c').
Proof.
  intros Ht Hnd Hh.
  destruct (holders_first_match t c d Hh) as [Hf _].
  pose proof (session_header_shape t Ht) as S.
  exists (update_first (by_id (_id d)) clear_login_state c). split.
  - now rewrite (signout_shape _ _ c S), Hf.
  - rewrite (signout_shape _ _ _ S).
    now rewrite (token_gone_after_update clear_login_state t c d Hnd Hh eq_refl).
Qed.

Lemma signout_twice_witness :
  "t1" <> "" /\ unique_ids example_store /\
  holders "t1" example_store = [alice_active] /\
  exists c',
    signout (Some "Session t1") example_store = (Return "Signed out", c') /\
    signout (Some "Session t1") c' = (Raise InvalidSession, c').
Proof.
  assert (N : "t1" <> "") by discriminate.
  assert (U : unique_ids example_store) by concrete_unique_ids.
  split; [exact N|]. split; [exact U|]. split; [reflexivity|].
  exact (signout_twice "t1" example_store alice_active N U eq_refl).
Defined.

(** ** Sessions of other users *)

(** A session survives what other users do. Let [b] be the document that
    token [tb] resolves to. A registration, a successful login of a user
    with another username that draws a token other than [tb], and a
    successful signout with a token other than [tb] all leave [tb]
    resolving to [b], unchanged, so protected access with [tb] answers
    as before. *)
Theorem other_sessions_survive (tb : string) (c : collection) (b : UserDoc) :
  unique_ids c ->
  first_match (by_token tb) c = Some b ->
  (forall hash oid utcnow salt user,
     first_match (by_token tb) (snd (register hash oid utcnow salt user c)) = Some b) /\
  (forall settings verify uuid4_hex utcnow body out c',
     login settings verify uuid4_hex utcnow body c = (Return out, c') ->
     LoginIn.username body <> username b -> uuid4_hex <> tb ->
     first_match (by_token tb) c' = Some b /\
     forall authorization, credential_shape authorization tb ->
       fst (require_session authorization c') = fst (require_session authorization c)) /\
  (forall authorization t msg c',
     signout authorization c = (Return msg, c') ->
     credential_shape authorization t -> t <> tb ->
     first_match (by_token tb) c' = Some b /\
     forall authorization', credential_shape authorization' tb ->
       fst (require_session authorization' c') = fst (require_session authorization' c)).
Proof.
  intros Hnd Hb.
  destruct (first_match_some _ _ _ Hb) as [Hbin Hbq].
  assert (Same : forall c', first_match (by_token tb) c' = Some b ->
            forall authorization, credential_shape authorization tb ->
            fst (require_session authorization c') = fst (require_session authorization c)).
  { intros c' Hc' authorization S.
    rewrite (require_session_shape _ _ c' S), (require_session_shape _ _ c S), Hc', Hb.
    destruct (logged_in b); [|reflexivity]. destruct (disabled b); reflexivity. }
  split; [|split].
  - intros hash oid utcnow salt user. rewrite register_cases.
    destruct (first_match (by_username (RegisterIn.username user)) c); [exact Hb|].
    destruct (MAX_PASSWORD_SIZE <? String.length (RegisterIn.password user))%nat;
      [exact Hb|].
    destruct (existsb (by_id oid) c); [exact Hb|].
    simpl. now rewrite first_match_app, Hb.
  - intros settings verify uuid4_hex utcnow body out c' H Hname Htok.
    apply login_success in H as (d & h & Hf & _ & _ & _ & _ & _ & _ & ->).
    apply first_match_some in Hf as [Hd Hq]. apply by_username_true in Hq.
    assert (Hc' : first_match (by_token tb)
                    (update_first (by_id (_id d))
                       (set_login_state uuid4_hex
                          (utcnow + SESSION_TOKEN_TTL_DAYS settings * 86400000000)%Z) c)
                  = Some b).
    { apply first_match_update_stable; [| |exact Hb].
      - intros x _. unfold by_token. simpl. now apply String.eqb_neq.
      - destruct (by_id (_id d) b) eqn:E; [|reflexivity].
        apply by_id_true in E.
        rewrite (unique_ids_eq c b d Hnd Hbin Hd E) in Hname. congruence. }
    split; [exact Hc'|]. now apply Same.
  - intros authorization t msg c' H S Htok.
    rewrite (signout_shape _ _ c S) in H.
    destruct (first_match (by_token t) c) as [d|] eqn:Hf; [|discriminate].
    injection H as _ <-.
    apply first_match_some in Hf as [Hd Hq]. apply by_token_true in Hq.
    assert (Hc' : first_match (by_token tb)
                    (update_first (by_id (_id d)) clear_login_state c) = Some b).
    { apply first_match_update_stable; [| |exact Hb].
      - intros x _. reflexivity.
      - destruct (by_id (_id d) b) eqn:E; [|reflexivity].
        apply by_id_true in E. apply by_token_true in Hbq.
        rewrite (unique_ids_eq c b d Hnd Hbin Hd E) in Hbq. congruence. }
    split; [exact Hc'|]. now apply Same.
Qed.

Lemma other_sessions_survive_witness :
  unique_ids example_store /\
  first_match (by_token "t1") example_store = Some alice_active /\
  first_match (by_token "t1") (snd (signout (Some "Session t3") example_store))
    = Some alice_active /\
  fst (require_session (Some "Session t1")
         (snd (signout (Some "Session t3") example_store)))
    = Return (public_view alice_active).
Proof.
  assert (U : unique_ids example_store) by concrete_unique_ids.
  assert (S3 : credential_shape (Some "Session t3") "t3").
  { exists "Session". repeat split; try reflexivity. discriminate. }
  assert (S1 : credential_shape (Some "Session t1") "t1").
  { exists "Session". repeat split; try reflexivity. discriminate. }
  assert (N : "t3" <> "t1") by discriminate.
  split; [exact U|]. split; [reflexivity|].
  destruct (proj2 (proj2 (other_sessions_survive "t1" example_store alice_active
                            U eq_refl))
              (Some "Session t3") "t3" "Signed out"
              (snd (signout (Some "Session t3") example_store)) eq_refl S3 N)
    as [A B].
  split; [exact A|]. rewrite (B (Some "Session t1") S1). reflexivity.
Defined.

(** ** The inactive-session error under the invariant *)

(** On a store where every document has a token exactly when it is logged
    in (which the handlers preserve), protected access never fails with
    SessionInactive: a document found by token is logged in. *)
Theorem session_inactive_unreachable (authorization : option string) (c : collection) :
  Forall session_inv c ->
  fst (require_session authorization c) <> Raise SessionInactive.
Proof.
  intros Hc.
  destruct (credential_shape_dec authorization) as [[t S]|N].
  - rewrite (require_session_shape _ _ c S).
    destruct (first_match (by_token t) c) as [d|] eqn:Hf; [|discriminate].
    apply first_match_some in Hf as [Hd Hq]. apply by_token_true in Hq.
    rewrite Forall_forall in Hc. specialize (Hc d Hd).
    assert (Hl : logged_in d = true) by (apply Hc; congruence).
    rewrite Hl. simpl. destruct (disabled d); discriminate.
  - destruct (require_session_reject authorization c N) as [E|E];
      rewrite E; discriminate.
Qed.

Lemma session_inactive_unreachable_witness :
  Forall session_inv [bob_idle; alice_active] /\
  first_match (by_token "t1") [bob_idle; alice_active] = Some alice_active /\
  fst (require_session (Some "Session t1") [bob_idle; alice_active])
    = Return (public_view alice_active) /\
  fst (require_session (Some "Session t1") [bob_idle; alice_active])
    <> Raise SessionInactive.
Proof.
  assert (H : Forall session_inv [bob_idle; alice_active]).
  { repeat constructor; try discriminate; simpl; congruence. }
  split; [exact H|]. split; [reflexivity|]. split; [reflexivity|].
  exact (session_inactive_unreachable (Some "Session t1")
           [bob_idle; alice_active] H).
Defined.
